(** * Buster web front-end: chart tooltip helpers, axis titles,
      permission lists and REST request plumbing.

    A shallow embedding of the TypeScript sources

    - [components/charts/.../pieTooltipHelper.ts] ([pieTooltipHelper],
      [getPiePercentage], [useXAxisTitle]),
    - [api/buster-rest/permission_groups/requests.ts],
    - [api/buster-rest/dataset_groups/queryRequests.ts],
    - [app/.../users/[userId]/datasets/UserDatasetsListContainer.tsx],

    with the properties the specification states about them. *)

From Stdlib Require Import PrimFloat Floats ZArith DecimalString.
From stdpp Require Import base option list strings gmap.

Open Scope Z_scope.

(** ** JavaScript values used by the chart helpers *)

Module Js.

(** A JS [number] is an IEEE 754 binary64: Rocq's primitive floats.  A
    slot that holds [number | undefined] (an array read that may be out
    of range) is an [option float]; arithmetic coerces [undefined] to
    [NaN]. *)
Definition num : Type := option float.

Definition toNumber (v : num) : float :=
  match v with
  | Some x => x
  | None => PrimFloat.nan
  end.

(** [a[i]] for a JS array and a numeric index: [undefined] when the
    index is negative or past the end. *)
Definition index {A : Type} (a : list A) (i : Z) : option A :=
  if Z.ltb i 0 then None else a !! Z.to_nat i.

(** [a.findIndex(p)]: the first index whose element satisfies [p], or
    [-1]. *)
Fixpoint findIndex_from {A : Type} (p : A -> bool) (a : list A) (start : Z) : Z :=
  match a with
  | [] => -1
  | x :: rest => if p x then start else findIndex_from p rest (start + 1)
  end.

Definition findIndex {A : Type} (p : A -> bool) (a : list A) : Z :=
  findIndex_from p a 0.

(** [a.includes(x)] and [a.find(p)]. *)
Definition includes (keys : list string) (x : string) : bool :=
  existsb (String.eqb x) keys.

Fixpoint find {A : Type} (p : A -> bool) (a : list A) : option A :=
  match a with
  | [] => None
  | x :: rest => if p x then Some x else find p rest
  end.

(** Evaluation either returns a value or throws.  The only exception the
    modelled code can raise by itself is the [TypeError] of reading a
    property of [undefined]. *)
Inductive error : Type := TypeError.

Inductive completion (A : Type) : Type :=
| Return (a : A)
| Throw (e : error).

Arguments Return {A} a.
Arguments Throw {A} e.

Definition bind {A B : Type} (c : completion A) (k : A -> completion B) : completion B :=
  match c with
  | Return a => k a
  | Throw e => Throw e
  end.

(** [o.field] where [o] may be [undefined]. *)
Definition prop {O A : Type} (o : option O) (field : O -> A) : completion A :=
  match o with
  | Some v => Return (field v)
  | None => Throw TypeError
  end.

(** [a.some(cb)] and [a.map(cb)] for a callback that may throw: the
    callback runs on the elements from left to right, [some] stops at the
    first [true], and an exception of the callback ends the call. *)
Fixpoint someM {A : Type} (cb : A -> completion bool) (a : list A) : completion bool :=
  match a with
  | [] => Return false
  | x :: rest => bind (cb x) (fun b => if b then Return true else someM cb rest)
  end.

Fixpoint mapM {A B : Type} (cb : A -> completion B) (a : list A) : completion (list B) :=
  match a with
  | [] => Return []
  | x :: rest => bind (cb x) (fun y => bind (mapM cb rest) (fun ys => Return (y :: ys)))
  end.

End Js.

(** Completions are sequenced with stdpp's [x ← c; k]. *)
#[global] Instance completion_ret : MRet Js.completion := @Js.Return.
#[global] Instance completion_bind : MBind Js.completion :=
  fun A B k c => Js.bind c k.

(** ** Pie tooltip: [pieTooltipHelper.ts] *)

Module PieTooltip.

(** The plugin state [chart.$totalizer]. *)
Record Totalizer : Type := { seriesTotals : list float }.

Record Chart : Type := { totalizer : Totalizer }.

(** A [ChartDataset] with the fields the helper reads.  The helper reads
    [label] through [as string] and [data] elements through [as number]:
    the fields have those types here.  [hidden] is read for its
    truthiness only.  [backgroundColor] is optional in chart.js; the
    helper takes it for an array of colours ([as string[]]) and indexes
    it, which throws when the dataset has none. *)
Record ChartDataset : Type := {
  label : string;
  hidden : bool;
  data : list float;
  backgroundColor : option (list string)
}.

(** A chart.js [TooltipItem]: the indices of the hovered point. *)
Record TooltipItem : Type := { dataIndex : Z; datasetIndex : Z }.

(** The entries of [ITooltipItem.values]. *)
Module Value.
Record t : Type := {
  formattedValue : string;
  formattedLabel : string;
  formattedPercentage : option string
}.
End Value.

Record ITooltipItem : Type := {
  usePercentage : bool;
  color : option string;
  seriesType : string;
  formattedLabel : string;
  values : list Value.t
}.

Section Helpers.

(** The type of [columnLabelFormats] and the formatter imported from
    [./helper] are defined elsewhere in the repository: they are taken as
    given. *)
Context {ColumnLabelFormats : Type}.
Variable percentageFormatter : float -> string -> ColumnLabelFormats -> string.

(** [getPiePercentage], lines 67-80. *)
Definition getPiePercentage
    (dataPointDataIndex datasetIndex : Z) (datasetData : list float)
    (label : string) (columnLabelFormats : ColumnLabelFormats)
    (chart : Chart) : string :=
  let compareValue := Js.index datasetData dataPointDataIndex in
  let totalizer := totalizer chart in
  let total := Js.index (seriesTotals totalizer) datasetIndex in
  let percentage :=
    PrimFloat.mul
      (PrimFloat.div (Js.toNumber compareValue) (Js.toNumber total))
      100%float in
  percentageFormatter percentage label columnLabelFormats.

(** The two formatters of [commonHelpers], defined elsewhere as
    well.  The raw value handed to the value formatter is an
    array read and may be [undefined]. *)
Variable formatChartLabelDelimiter : string -> ColumnLabelFormats -> string.
Variable formatChartValueDelimiter : Js.num -> string -> ColumnLabelFormats -> string.

(** The callback of the final [map], lines 27-64.  For the item of the
    hovered label it indexes [dataPointDataset.backgroundColor], which
    throws when the hovered dataset has no [backgroundColor]. *)
Definition tooltipItemOf
    (datasets : list ChartDataset) (dataPointDataset : option ChartDataset)
    (dataPointDataIndex : Z) (chart : Chart)
    (columnLabelFormats : ColumnLabelFormats) (keyToUsePercentage : list string)
    (tooltipDataset : ChartDataset) : Js.completion ITooltipItem :=
  (activeLabel ← Js.prop dataPointDataset label;
   let isActiveDataset := String.eqb (label tooltipDataset) activeLabel in
   color ← (if isActiveDataset
             then (colors ← Js.prop dataPointDataset backgroundColor;
                   Js.prop colors (fun array => Js.index array dataPointDataIndex))
             else Js.Return None);
   let formattedLabel :=
     formatChartLabelDelimiter (label tooltipDataset) columnLabelFormats in
   let rawValue := Js.index (data tooltipDataset) dataPointDataIndex in
   let formattedValue :=
     formatChartValueDelimiter rawValue (label tooltipDataset) columnLabelFormats in
   let usePercentage := Js.includes keyToUsePercentage (label tooltipDataset) in
   let formattedPercentage :=
     if usePercentage
     then Some (getPiePercentage
                  dataPointDataIndex
                  (Js.findIndex
                     (fun dataset =>
                        String.eqb (label dataset) (label tooltipDataset) && hidden dataset)
                     datasets)
                  (data tooltipDataset)
                  (label tooltipDataset)
                  columnLabelFormats
                  chart)
     else None in
   Js.Return
     {| usePercentage := usePercentage;
        color := color;
        seriesType := "pie";
        formattedLabel := formattedLabel;
        values := [ {| Value.formattedValue := formattedValue;
                       Value.formattedLabel := formattedLabel;
                       Value.formattedPercentage := formattedPercentage |} ] |}).

(** [pieTooltipHelper], lines 7-65.  [dataPoints[0]!.dataIndex] throws on
    an empty [dataPoints]; [dataPointDataset.label] throws, at the first
    callback that reads it, when [datasetIndex] is not an index of
    [datasets]. *)
Definition pieTooltipHelper
    (datasets : list ChartDataset) (dataPoints : list TooltipItem)
    (chart : Chart) (columnLabelFormats : ColumnLabelFormats)
    (keyToUsePercentage : list string) : Js.completion (list ITooltipItem) :=
  (dataPointDataIndex ← Js.prop (Js.index dataPoints 0) dataIndex;
   dataPointDatasetIndex ← Js.prop (Js.index dataPoints 0) datasetIndex;
   let dataPointDataset := Js.index datasets dataPointDatasetIndex in
   let tooltipDatasets := List.filter hidden datasets in
   dataPointIsInTooltip ←
     Js.someM
       (fun dataset =>
          activeLabel ← Js.prop dataPointDataset label;
          Js.Return (String.eqb (label dataset) activeLabel))
       tooltipDatasets;
   if negb dataPointIsInTooltip
   then Js.Return []
   else Js.mapM
          (tooltipItemOf datasets dataPointDataset dataPointDataIndex chart
             columnLabelFormats keyToUsePercentage)
          tooltipDatasets).

End Helpers.

End PieTooltip.

(** ** What a tooltip item says about a hidden dataset *)

Section TooltipSpec.

Import PieTooltip.

Context {ColumnLabelFormats : Type}.
Variable percentageFormatter : float -> string -> ColumnLabelFormats -> string.
Variable formatChartLabelDelimiter : string -> ColumnLabelFormats -> string.
Variable formatChartValueDelimiter : Js.num -> string -> ColumnLabelFormats -> string.

(** [j] is the position in [datasets] of the first hidden dataset
    labelled [l]: the totalizer series of that label. *)
Definition totalizerSeriesAt (datasets : list ChartDataset) (l : string) (j : Z) : Prop :=
  (exists t, Js.index datasets j = Some t /\ hidden t = true /\ label t = l) /\
  forall (k : Z) (u : ChartDataset),
    0 <= k < j -> Js.index datasets k = Some u ->
    ~ (hidden u = true /\ label u = l).

(** What the tooltip shows for the hidden dataset [h] when the hovered
    point is data index [di] of the dataset [active]. *)
Definition describes
    (datasets : list ChartDataset) (active : ChartDataset) (di : Z)
    (chart : Chart) (formats : ColumnLabelFormats) (keys : list string)
    (h : ChartDataset) (item : ITooltipItem) : Prop :=
  formattedLabel item = formatChartLabelDelimiter (label h) formats /\
  seriesType item = "pie"%string /\
  usePercentage item = Js.includes keys (label h) /\
  color item = (if String.eqb (label h) (label active)
                then backgroundColor active ≫= (fun colors => Js.index colors di)
                else None) /\
  exists pct : option string,
    values item =
      [ {| Value.formattedValue :=
             formatChartValueDelimiter (Js.index (data h) di) (label h) formats;
           Value.formattedLabel := formatChartLabelDelimiter (label h) formats;
           Value.formattedPercentage := pct |} ] /\
    if Js.includes keys (label h)
    then exists j : Z,
           totalizerSeriesAt datasets (label h) j /\
           pct = Some (percentageFormatter
                         (Js.toNumber (Js.index (data h) di)
                          / Js.toNumber (Js.index (seriesTotals (totalizer chart)) j)
                          * 100)%float
                         (label h) formats)
    else pct = None.

End TooltipSpec.

(** A small chart used to exercise the helpers: one visible series and
    the hidden series behind the tooltip. *)
Module Demo.

Import PieTooltip.

Definition formats : Type := unit.

Definition percentageFormatter (p : float) (l : string) (_ : formats) : string :=
  if PrimFloat.eqb p 25%float then "25%"
  else if PrimFloat.eqb p 50%float then "50%" else "?".

Definition formatChartLabelDelimiter (l : string) (_ : formats) : string := l.

Definition formatChartValueDelimiter (v : Js.num) (l : string) (_ : formats) : string :=
  match v with
  | Some x => if PrimFloat.eqb x 1%float then "1"
              else if PrimFloat.eqb x 2%float then "2" else "?"
  | None => "undefined"
  end.

Definition visibleSales : ChartDataset :=
  {| label := "sales"; hidden := false; data := [1%float; 3%float];
     backgroundColor := Some ["red"; "blue"]%string |}.

Definition hiddenSales : ChartDataset :=
  {| label := "sales"; hidden := true; data := [1%float; 3%float];
     backgroundColor := None |}.

Definition hiddenCost : ChartDataset :=
  {| label := "cost"; hidden := true; data := [2%float; 2%float];
     backgroundColor := None |}.

Definition visibleOther : ChartDataset :=
  {| label := "other"; hidden := false; data := [5%float; 5%float];
     backgroundColor := Some ["green"; "grey"]%string |}.

Definition datasets : list ChartDataset :=
  [visibleSales; hiddenSales; hiddenCost; visibleOther].

Definition chart : Chart :=
  {| totalizer := {| seriesTotals := [4%float; 4%float; 4%float; 10%float] |} |}.

(** The same chart with a visible series that carries no colours. *)
Definition bareSales : ChartDataset :=
  {| label := "sales"; hidden := false; data := [1%float; 3%float];
     backgroundColor := None |}.

Definition bareDatasets : list ChartDataset :=
  [bareSales; hiddenSales; hiddenCost; visibleOther].

Definition hoverSales : TooltipItem := {| dataIndex := 0; datasetIndex := 0 |}.
Definition hoverOther : TooltipItem := {| dataIndex := 0; datasetIndex := 3 |}.

End Demo.

(** ** The dataset list of a user: [UserDatasetsListContainer.tsx] *)

Module UserDatasetsList.

(** [BusterUserDataset], as far as the list reads it. *)
Module Dataset.
Record t : Type := { id : string; name : string; assigned : bool }.
End Dataset.

Record RowSection : Type := { title : string; secondaryTitle : string }.

(** [BusterListRowItem].  A section header carries the empty object as
    [data]; [link], [hidden] and [rowSection] are optional. *)
Module Row.
Record t : Type := {
  id : string;
  data : option Dataset.t;
  link : option string;
  hidden : option bool;
  rowSection : option RowSection
}.
End Row.

(** The datasets of the "Not Assigned" section. *)
Definition unassigned (d : Dataset.t) : bool := negb (Dataset.assigned d).

(** [n.toString()] for an array length. *)
Definition toString (n : nat) : string := NilEmpty.string_of_uint (Nat.to_uint n).

(** The accumulator of the [reduce]. *)
Record Partition : Type := {
  cannotQueryPermissionUsers : list Row.t;
  canQueryPermissionUsers : list Row.t
}.

Section Container.

(** [createBusterRoute] applied to the route [APP_SETTINGS_USERS_ID]
    and a user id; the router is defined elsewhere in the repository. *)
Variable createBusterRoute : string -> string.

(** The row pushed for a dataset, lines 68-75. *)
Definition rowOf (dataset : Dataset.t) : Row.t :=
  {| Row.id := Dataset.id dataset;
     Row.data := Some dataset;
     Row.link := Some (createBusterRoute (Dataset.id dataset));
     Row.hidden := None;
     Row.rowSection := None |}.

(** The reducer, lines 67-82: [push] appends to one of the two arrays. *)
Definition reducer (acc : Partition) (dataset : Dataset.t) : Partition :=
  let user := rowOf dataset in
  if Dataset.assigned dataset
  then {| cannotQueryPermissionUsers := cannotQueryPermissionUsers acc;
          canQueryPermissionUsers := canQueryPermissionUsers acc ++ [user] |}
  else {| cannotQueryPermissionUsers := cannotQueryPermissionUsers acc ++ [user];
          canQueryPermissionUsers := canQueryPermissionUsers acc |}.

Definition partitionDatasets (filteredDatasets : list Dataset.t) : Partition :=
  fold_left reducer filteredDatasets
    {| cannotQueryPermissionUsers := []; canQueryPermissionUsers := [] |}.

(** A section header row, lines 94-102 and 104-112. *)
Definition sectionHeader (id title : string) (section : list Row.t) : Row.t :=
  {| Row.id := id;
     Row.data := None;
     Row.link := None;
     Row.hidden := Some (Nat.eqb (length section) 0);
     Row.rowSection :=
       Some {| title := title; secondaryTitle := toString (length section) |} |}.

(** [!(row as any).hidden]: an absent [hidden] is falsy. *)
Definition shown (row : Row.t) : bool :=
  negb (match Row.hidden row with Some b => b | None => false end).

(** The [rows] memo, lines 91-116. *)
Definition rows (filteredDatasets : list Dataset.t) : list Row.t :=
  let p := partitionDatasets filteredDatasets in
  List.filter shown
    ([sectionHeader "header-assigned" "Assigned" (canQueryPermissionUsers p)]
     ++ canQueryPermissionUsers p
     ++ [sectionHeader "header-not-assigned" "Not Assigned" (cannotQueryPermissionUsers p)]
     ++ cannotQueryPermissionUsers p).

End Container.

End UserDatasetsList.

(** ** The HTTP client and the query cache *)

Module Http.

Inductive Method : Type := GET | POST | PUT | DELETE.

(** [{ id: string; assigned: boolean }], the element of the update
    lists. *)
Module Assignment.
Record t : Type := { id : string; assigned : bool }.
End Assignment.

(** [{ id: string; name: string }], the element of the list sent by
    [updatePermissionGroups]. *)
Module Renaming.
Record t : Type := { id : string; name : string }.
End Renaming.

(** The request bodies the request functions pass to the client. *)
Inductive Body : Type :=
| AssignmentList (data : list Assignment.t)
| RenamingList (data : list Renaming.t)
| NameObject (name : string).

Record Request : Type := {
  method : Method;
  url : string;
  body : option Body
}.

(** What the client resolves with; the functions only read [data]. *)
Record Response (Payload : Type) : Type := {
  status : Z;
  data : Payload
}.

Arguments status {Payload} _.
Arguments data {Payload} _.

End Http.

Module Query.

(** A cached row is a plain JS object: a finite map from property names
    to values. *)
Inductive Value : Type :=
| VStr (s : string)
| VBool (b : bool)
| VNum (n : Z)
| VNull.

#[global] Instance Value_eq_dec : EqDecision Value.
Proof. solve_decision. Defined.

Abbreviation Obj := (gmap string Value).

(** The data of a query: an array of rows, or anything else. *)
Inductive Data (Payload : Type) : Type :=
| Rows (rows : list Obj)
| Other (payload : Payload).

Arguments Rows {Payload} rows.
Arguments Other {Payload} payload.

(** The state the cache keeps per query key. *)
Record State (Payload : Type) : Type := {
  data : option (Data Payload);
  isInvalidated : bool
}.

Arguments data {Payload} _.
Arguments isInvalidated {Payload} _.

End Query.

(** What the outside can observe of a run, in order. *)
Inductive Event : Type :=
| Sent (request : Http.Request)
| CacheSet (queryKey : list string)
| Invalidated (queryKey : list string).

(** The world the request functions and the hooks act on: the query
    cache of the [QueryClient] and the events so far. *)
Record World (Payload : Type) : Type := {
  cache : gmap (list string) (Query.State Payload);
  trace : list Event
}.

Arguments cache {Payload} _.
Arguments trace {Payload} _.

(** A promise settles as rejected, with the client's error or with an
    exception thrown on the way, or as fulfilled. *)
Inductive Failure (HttpError : Type) : Type :=
| Rejected (e : HttpError)
| Thrown (e : Js.error).

Arguments Rejected {HttpError} e.
Arguments Thrown {HttpError} e.

Definition Eff (Payload HttpError A : Type) : Type :=
  World Payload -> (Failure HttpError + A) * World Payload.

(** [await] sequences: the continuation runs in the world the awaited
    promise leaves, and only when it fulfils. *)
#[global] Instance Eff_ret {Payload HttpError} : MRet (Eff Payload HttpError) :=
  fun A a w => (inr a, w).
#[global] Instance Eff_bind {Payload HttpError} : MBind (Eff Payload HttpError) :=
  fun A B k c w =>
    match c w with
    | (inr a, w') => k a w'
    | (inl e, w') => (inl e, w')
    end.

Section Client.

Context {Payload HttpError : Type}.

(** The axios instance [mainApi] of [../instances]: given the events so
    far and a request, the outcome of that request.  It is configured
    elsewhere in the repository and is left arbitrary. *)
Variable mainApi : list Event -> Http.Request -> HttpError + Http.Response Payload.

Definition send (request : Http.Request) : Eff Payload HttpError (Http.Response Payload) :=
  fun w =>
    (match mainApi (trace w) request with
     | inl e => inl (Rejected e)
     | inr res => inr res
     end,
     {| cache := cache w; trace := trace w ++ [Sent request] |}).

Definition mainApi_get (url : string) :=
  send {| Http.method := Http.GET; Http.url := url; Http.body := None |}.
Definition mainApi_delete (url : string) :=
  send {| Http.method := Http.DELETE; Http.url := url; Http.body := None |}.
Definition mainApi_put (url : string) (data : Http.Body) :=
  send {| Http.method := Http.PUT; Http.url := url; Http.body := Some data |}.
Definition mainApi_post (url : string) (data : Http.Body) :=
  send {| Http.method := Http.POST; Http.url := url; Http.body := Some data |}.

(** *** [permission_groups/requests.ts] *)

Definition listAllPermissionGroups : Eff Payload HttpError Payload :=
  res ← mainApi_get "/permission_groups"; mret (Http.data res).

Definition getPermissionGroup (id : string) : Eff Payload HttpError Payload :=
  res ← mainApi_get ("/permission_groups/" +:+ id); mret (Http.data res).

Definition updatePermissionGroups (id : string) (data : list Http.Renaming.t)
  : Eff Payload HttpError Payload :=
  res ← mainApi_put ("/permission_groups/" +:+ id) (Http.RenamingList data);
  mret (Http.data res).

Definition deletePermissionGroup (id : string) : Eff Payload HttpError Payload :=
  res ← mainApi_delete ("/permission_groups/" +:+ id); mret (Http.data res).

Definition createPermissionGroup (name : string) : Eff Payload HttpError Payload :=
  res ← mainApi_post "/permission_groups" (Http.NameObject name);
  mret (Http.data res).

Definition getPermissionGroupUsers (id : string) : Eff Payload HttpError Payload :=
  res ← mainApi_get ("/permission_groups/" +:+ id +:+ "/users"); mret (Http.data res).

Definition getPermissionGroupDatasets (id : string) : Eff Payload HttpError Payload :=
  res ← mainApi_get ("/permission_groups/" +:+ id +:+ "/datasets"); mret (Http.data res).

Definition getPermissionGroupDatasetGroups (id : string) : Eff Payload HttpError Payload :=
  res ← mainApi_get ("/permission_groups/" +:+ id +:+ "/dataset_groups");
  mret (Http.data res).

Definition updatePermissionGroupUsers (id : string) (data : list Http.Assignment.t)
  : Eff Payload HttpError Payload :=
  res ← mainApi_put ("/permission_groups/" +:+ id +:+ "/users") (Http.AssignmentList data);
  mret (Http.data res).

Definition updatePermissionGroupDatasets (id : string) (data : list Http.Assignment.t)
  : Eff Payload HttpError Payload :=
  res ← mainApi_put ("/permission_groups/" +:+ id +:+ "/datasets") (Http.AssignmentList data);
  mret (Http.data res).

Definition updatePermissionGroupDatasetGroups (id : string) (data : list Http.Assignment.t)
  : Eff Payload HttpError Payload :=
  res ← mainApi_put ("/permission_groups/" +:+ id +:+ "/dataset_groups")
          (Http.AssignmentList data);
  mret (Http.data res).

End Client.

(** ** The query client and the dataset-group hooks: [queryRequests.ts] *)

Section QueryClient.

Context {Payload HttpError : Type}.

(** [queryClient.setQueryData(queryKey, updater)]: the updater receives
    the data cached under the key ([undefined] when there is none); its
    result becomes the data of the query, which counts as fresh.  An
    exception of the updater leaves the cache as it was. *)
Definition setQueryData (queryKey : list string)
    (updater : option (Query.Data Payload) -> Js.completion (Query.Data Payload))
  : Eff Payload HttpError unit :=
  fun w =>
    let prevData := cache w !! queryKey ≫= Query.data in
    match updater prevData with
    | Js.Throw e => (inl (Thrown e), w)
    | Js.Return data =>
        (inr tt,
         {| cache := <[queryKey := {| Query.data := Some data;
                                      Query.isInvalidated := false |}]> (cache w);
            trace := trace w ++ [CacheSet queryKey] |})
    end.

(** [queryClient.invalidateQueries({ queryKey })]: every query whose key
    starts with [queryKey] is marked invalidated.  The hooks do not await
    the refetches it schedules. *)
Definition invalidate (queryKey key : list string) (q : Query.State Payload)
  : option (Query.State Payload) :=
  Some (if bool_decide (queryKey `prefix_of` key)
        then {| Query.data := Query.data q; Query.isInvalidated := true |}
        else q).

Definition invalidateQueries (queryKey : list string) : Eff Payload HttpError unit :=
  fun w =>
    (inr tt,
     {| cache := map_imap (invalidate queryKey) (cache w);
        trace := trace w ++ [Invalidated queryKey] |}).

(** [oldData.map(f)] on cached data: a [TypeError] unless the data is an
    array. *)
Definition mapRows (oldData : option (Query.Data Payload)) (f : Query.Obj -> Query.Obj)
  : Js.completion (Query.Data Payload) :=
  match oldData with
  | Some (Query.Rows rows) => Js.Return (Query.Rows (map f rows))
  | Some (Query.Other _) | None => Js.Throw Js.TypeError
  end.

(** [d.id === row.id] *)
Definition sameId (row : Query.Obj) (d : Http.Assignment.t) : bool :=
  bool_decide (row !! "id"%string = Some (Query.VStr (Http.Assignment.id d))).

(** [{ ...row, assigned: value }] *)
Definition withAssigned (row : Query.Obj) (value : bool) : Query.Obj :=
  <["assigned"%string := Query.VBool value]> row.

Section Hooks.

(** The request functions of [dataset_groups/requests.ts] are defined
    elsewhere in the repository: here they are whatever they do to the
    world and settle with. *)
Context {DatasetGroupUpdate : Type}.
Variable deleteDatasetGroup : string -> Eff Payload HttpError Payload.
Variable updateDatasetGroup : DatasetGroupUpdate -> Eff Payload HttpError Payload.
Variable updateDatasetGroupUsers :
  string -> list Http.Assignment.t -> Eff Payload HttpError Payload.
Variable updateDatasetGroupDatasets :
  string -> list Http.Assignment.t -> Eff Payload HttpError Payload.
Variable updateDatasetGroupPermissionGroups :
  string -> list Http.Assignment.t -> Eff Payload HttpError Payload.

(** Each hook below stands for the [mutationFn] it hands to
    [useCreateReactMutation]. *)

(** Lines 34-45. *)
Definition useDeleteDatasetGroup (id : string) : Eff Payload HttpError Payload :=
  res ← deleteDatasetGroup id;
  _ ← invalidateQueries ["dataset_groups"%string];
  mret res.

(** Lines 47-58. *)
Definition useUpdateDatasetGroup (data : DatasetGroupUpdate) : Eff Payload HttpError Payload :=
  res ← updateDatasetGroup data;
  _ ← invalidateQueries ["dataset_groups"%string];
  mret res.

(** Lines 120-140. *)
Definition useUpdateDatasetGroupUsers (datasetGroupId : string)
    (data : list Http.Assignment.t) : Eff Payload HttpError Payload :=
  _ ← setQueryData ["dataset_groups"; datasetGroupId; "users"]%string
        (fun oldData =>
           mapRows oldData
             (fun user =>
                match Js.find (sameId user) data with
                | Some userToUpdate =>
                    withAssigned user (Http.Assignment.assigned userToUpdate)
                | None => user
                end));
  updateDatasetGroupUsers datasetGroupId data.

(** Lines 142-162. *)
Definition useUpdateDatasetGroupDatasets (datasetGroupId : string)
    (data : list Http.Assignment.t) : Eff Payload HttpError Payload :=
  _ ← setQueryData ["dataset_groups"; datasetGroupId; "datasets"]%string
        (fun oldData =>
           mapRows oldData
             (fun dataset =>
                match Js.find (sameId dataset) data with
                | Some datasetToUpdate =>
                    withAssigned dataset (Http.Assignment.assigned datasetToUpdate)
                | None => dataset
                end));
  updateDatasetGroupDatasets datasetGroupId data.

(** Lines 164-184. *)
Definition useUpdateDatasetGroupPermissionGroups (datasetGroupId : string)
    (data : list Http.Assignment.t) : Eff Payload HttpError Payload :=
  _ ← setQueryData ["dataset_groups"; datasetGroupId; "permission_groups"]%string
        (fun oldData =>
           mapRows oldData
             (fun permissionGroup =>
                match Js.find (sameId permissionGroup) data with
                | Some permissionGroupToUpdate =>
                    withAssigned permissionGroup
                      (Http.Assignment.assigned permissionGroupToUpdate)
                | None => permissionGroup
                end));
  updateDatasetGroupPermissionGroups datasetGroupId data.

End Hooks.

End QueryClient.

(** ** Vocabulary for the statements about requests and hooks *)

Section RequestSpec.

Context {Payload HttpError : Type}.
Variable mainApi : list Event -> Http.Request -> HttpError + Http.Response Payload.

(** The world once [request] has been handed to the client. *)
Definition afterRequest (request : Http.Request) (w : World Payload) : World Payload :=
  {| cache := cache w; trace := trace w ++ [Sent request] |}.

(** The client's error as it is, or the [data] of its response. *)
Definition settle (outcome : HttpError + Http.Response Payload)
  : Failure HttpError + Payload :=
  match outcome with
  | inl e => inl (Rejected e)
  | inr res => inr (Http.data res)
  end.

(** [f] hands exactly [request] to the client and settles as the client
    does. *)
Definition performs (f : Eff Payload HttpError Payload) (request : Http.Request) : Prop :=
  forall w : World Payload,
    f w = (settle (mainApi (trace w) request), afterRequest request w).

(** The calls of [permission_groups/requests.ts]. *)
Inductive Call : Type :=
| ListAllPermissionGroups
| GetPermissionGroup (id : string)
| UpdatePermissionGroups (id : string) (data : list Http.Renaming.t)
| DeletePermissionGroup (id : string)
| CreatePermissionGroup (name : string)
| GetPermissionGroupUsers (id : string)
| GetPermissionGroupDatasets (id : string)
| GetPermissionGroupDatasetGroups (id : string)
| UpdatePermissionGroupUsers (id : string) (data : list Http.Assignment.t)
| UpdatePermissionGroupDatasets (id : string) (data : list Http.Assignment.t)
| UpdatePermissionGroupDatasetGroups (id : string) (data : list Http.Assignment.t).

Definition invoke (c : Call) : Eff Payload HttpError Payload :=
  match c with
  | ListAllPermissionGroups => listAllPermissionGroups mainApi
  | GetPermissionGroup id => getPermissionGroup mainApi id
  | UpdatePermissionGroups id data => updatePermissionGroups mainApi id data
  | DeletePermissionGroup id => deletePermissionGroup mainApi id
  | CreatePermissionGroup name => createPermissionGroup mainApi name
  | GetPermissionGroupUsers id => getPermissionGroupUsers mainApi id
  | GetPermissionGroupDatasets id => getPermissionGroupDatasets mainApi id
  | GetPermissionGroupDatasetGroups id => getPermissionGroupDatasetGroups mainApi id
  | UpdatePermissionGroupUsers id data => updatePermissionGroupUsers mainApi id data
  | UpdatePermissionGroupDatasets id data => updatePermissionGroupDatasets mainApi id data
  | UpdatePermissionGroupDatasetGroups id data =>
      updatePermissionGroupDatasetGroups mainApi id data
  end.

(** The endpoints as the interface description lists them. *)
Definition endpoint (c : Call) : Http.Request :=
  let req m u b := {| Http.method := m; Http.url := u; Http.body := b |} in
  match c with
  | ListAllPermissionGroups => req Http.GET "/permission_groups" None
  | GetPermissionGroup id => req Http.GET ("/permission_groups/" +:+ id) None
  | UpdatePermissionGroups id data =>
      req Http.PUT ("/permission_groups/" +:+ id) (Some (Http.RenamingList data))
  | DeletePermissionGroup id => req Http.DELETE ("/permission_groups/" +:+ id) None
  | CreatePermissionGroup name =>
      req Http.POST "/permission_groups" (Some (Http.NameObject name))
  | GetPermissionGroupUsers id =>
      req Http.GET ("/permission_groups/" +:+ id +:+ "/users") None
  | GetPermissionGroupDatasets id =>
      req Http.GET ("/permission_groups/" +:+ id +:+ "/datasets") None
  | GetPermissionGroupDatasetGroups id =>
      req Http.GET ("/permission_groups/" +:+ id +:+ "/dataset_groups") None
  | UpdatePermissionGroupUsers id data =>
      req Http.PUT ("/permission_groups/" +:+ id +:+ "/users")
        (Some (Http.AssignmentList data))
  | UpdatePermissionGroupDatasets id data =>
      req Http.PUT ("/permission_groups/" +:+ id +:+ "/datasets")
        (Some (Http.AssignmentList data))
  | UpdatePermissionGroupDatasetGroups id data =>
      req Http.PUT ("/permission_groups/" +:+ id +:+ "/dataset_groups")
        (Some (Http.AssignmentList data))
  end.

End RequestSpec.

Section HookSpec.

Context {Payload HttpError : Type}.

(** The world once the queries under [queryKey] have been marked. *)
Definition afterInvalidation (queryKey : list string) (w : World Payload) : World Payload :=
  {| cache := map_imap (invalidate queryKey) (cache w);
     trace := trace w ++ [Invalidated queryKey] |}.

(** A settled request followed by the invalidation of [queryKey] when,
    and only when, it fulfilled. *)
Definition thenInvalidate (queryKey : list string)
    (settled : (Failure HttpError + Payload) * World Payload)
  : (Failure HttpError + Payload) * World Payload :=
  match settled with
  | (inr res, w') => (inr res, afterInvalidation queryKey w')
  | (inl e, w') => (inl e, w')
  end.

(** The world once [rows] have been written under [queryKey]. *)
Definition afterCacheSet (queryKey : list string) (rows : list Query.Obj)
    (w : World Payload) : World Payload :=
  {| cache := <[queryKey := {| Query.data := Some (Query.Rows rows);
                               Query.isInvalidated := false |}]> (cache w);
     trace := trace w ++ [CacheSet queryKey] |}.

(** [d] is the entry of the update list [L] that speaks for [row]: the
    first one carrying the row's id. *)
Definition speaksFor (L : list Http.Assignment.t) (row : Query.Obj)
    (d : Http.Assignment.t) : Prop :=
  exists n : nat,
    L !! n = Some d /\
    row !! "id"%string = Some (Query.VStr (Http.Assignment.id d)) /\
    forall (m : nat) (d' : Http.Assignment.t),
      (m < n)%nat -> L !! m = Some d' ->
      row !! "id"%string <> Some (Query.VStr (Http.Assignment.id d')).

(** [row'] is [row] after the update list [L]: [assigned] as [L] says
    and nothing else touched when the row's id occurs in [L]; the very
    same row otherwise. *)
Definition reassigned (L : list Http.Assignment.t) (row row' : Query.Obj) : Prop :=
  (forall d, speaksFor L row d ->
     row' !! "assigned"%string = Some (Query.VBool (Http.Assignment.assigned d)) /\
     forall field : string, field <> "assigned"%string -> row' !! field = row !! field) /\
  ((forall d, d ∈ L -> row !! "id"%string <> Some (Query.VStr (Http.Assignment.id d))) ->
   row' = row).

(** The three member lists of a dataset group and their hooks. *)
Inductive Members : Type := Users | Datasets | PermissionGroups.

Definition membersKey (m : Members) (datasetGroupId : string) : list string :=
  match m with
  | Users => ["dataset_groups"; datasetGroupId; "users"]%string
  | Datasets => ["dataset_groups"; datasetGroupId; "datasets"]%string
  | PermissionGroups => ["dataset_groups"; datasetGroupId; "permission_groups"]%string
  end.

Section Members.

Variable updateDatasetGroupUsers :
  string -> list Http.Assignment.t -> Eff Payload HttpError Payload.
Variable updateDatasetGroupDatasets :
  string -> list Http.Assignment.t -> Eff Payload HttpError Payload.
Variable updateDatasetGroupPermissionGroups :
  string -> list Http.Assignment.t -> Eff Payload HttpError Payload.

Definition membersRequest (m : Members) :=
  match m with
  | Users => updateDatasetGroupUsers
  | Datasets => updateDatasetGroupDatasets
  | PermissionGroups => updateDatasetGroupPermissionGroups
  end.

Definition membersMutation (m : Members) :=
  match m with
  | Users => useUpdateDatasetGroupUsers updateDatasetGroupUsers
  | Datasets => useUpdateDatasetGroupDatasets updateDatasetGroupDatasets
  | PermissionGroups =>
      useUpdateDatasetGroupPermissionGroups updateDatasetGroupPermissionGroups
  end.

End Members.

End HookSpec.

(** A dataset group with two cached users and a server that accepts
    everything, used to exercise the hooks. *)
Module DemoHooks.

Definition server : list Event -> Http.Request -> string + Http.Response string :=
  fun _ _ => inr {| Http.status := 200; Http.data := "ok"%string |}.

Definition put (segment : string) (id : string) (data : list Http.Assignment.t)
  : Eff string string string :=
  res ← mainApi_put server ("/dataset_groups/" +:+ id +:+ segment) (Http.AssignmentList data);
  mret (Http.data res).

Definition ann : Query.Obj :=
  {[ "id"%string := Query.VStr "u1"; "assigned"%string := Query.VBool false;
     "name"%string := Query.VStr "Ann" ]}.

Definition bob : Query.Obj :=
  {[ "id"%string := Query.VStr "u2"; "assigned"%string := Query.VBool true;
     "name"%string := Query.VStr "Bob" ]}.

Definition cached : Query.State string :=
  {| Query.data := Some (Query.Rows [ann; bob]); Query.isInvalidated := true |}.

Definition world : World string :=
  {| cache := {[ ["dataset_groups"; "g1"; "users"]%string := cached ]};
     trace := [] |}.

Definition assignAnn : list Http.Assignment.t :=
  [ {| Http.Assignment.id := "u1"; Http.Assignment.assigned := true |} ].

End DemoHooks.

(** ** Axis title: [useXAxisTitle] *)

Module AxisTitle.

(** A prop of type [string | null] that may also be absent. *)
Inductive Optional (A : Type) : Type :=
| Undefined
| Null
| Defined (a : A).

Arguments Undefined {A}.
Arguments Null {A}.
Arguments Defined {A} a.

#[global] Instance Optional_eq_dec {A : Type} `{EqDecision A} : EqDecision (Optional A).
Proof. solve_decision. Defined.

(** An array or object as React sees it when it compares dependencies:
    an identity, compared by [Object.is], and the contents. *)
Record Ref (A : Type) : Type := { identity : nat; contents : A }.

Arguments identity {A} _.
Arguments contents {A} _.

(** [ChartEncodes]: the hook reads the [x] channel only. *)
Record ChartEncodes : Type := { x : list string }.

Record UseXAxisTitleProps (Format : Type) : Type := {
  xAxis : Ref (list string);
  columnLabelFormats : Ref (gmap string Format);
  isSupportedChartForAxisTitles : bool;
  xAxisAxisTitle : Optional string;
  xAxisShowAxisTitle : option bool;
  selectedAxis : ChartEncodes
}.

Arguments xAxis {Format} _.
Arguments columnLabelFormats {Format} _.
Arguments isSupportedChartForAxisTitles {Format} _.
Arguments xAxisAxisTitle {Format} _.
Arguments xAxisShowAxisTitle {Format} _.
Arguments selectedAxis {Format} _.

(** A [useMemo] cell: the dependencies of the last computation and its
    value. *)
Record Memo (D V : Type) : Type := { deps : D; memoized : V }.

Arguments deps {D V} _.
Arguments memoized {D V} _.

(** [useMemo(create, deps)]: the stored value when every dependency is
    [Object.is]-equal to the stored one, a new computation otherwise and
    on the first render. *)
Definition useMemo {D V : Type} `{EqDecision D}
    (cell : option (Memo D V)) (create : V) (dependencies : D) : Memo D V :=
  match cell with
  | Some c =>
      if decide (deps c = dependencies) then c
      else {| deps := dependencies; memoized := create |}
  | None => {| deps := dependencies; memoized := create |}
  end.

(** The dependency lists of the two memos, lines 105 and 115-121.
    Strings and booleans are compared by value, arrays and objects by
    identity. *)
Definition FormatsDeps : Type := nat * bool * nat.
Definition TitleDeps : Type := Optional string * bool * option bool * nat * nat.

(** What the hook keeps between renders.  [renders] counts them; the
    array created during a render takes that number as its identity. *)
Record HookState (Format : Type) : Type := {
  formatsMemo : option (Memo FormatsDeps (Ref (list (option Format))));
  titleMemo : option (Memo TitleDeps string);
  renders : nat
}.

Arguments formatsMemo {Format} _.
Arguments titleMemo {Format} _.
Arguments renders {Format} _.

Definition mount {Format : Type} : HookState Format :=
  {| formatsMemo := None; titleMemo := None; renders := 0 |}.

(** Truthiness of an optional boolean and [a || b] on strings. *)
Definition truthy (b : option bool) : bool :=
  match b with Some true => true | _ => false end.

Definition orElse (a : Optional string) (b : string) : string :=
  match a with
  | Defined s => if String.eqb s "" then b else s
  | Undefined | Null => b
  end.

Section Hook.

Context {Format : Type}.

(** [formatLabel] of [@/utils/columnFormatter] and
    [AXIS_TITLE_SEPARATOR] of [./axisHelper] are defined elsewhere in the
    repository. *)
Variable formatLabel : string -> option Format -> bool -> string.
Variable AXIS_TITLE_SEPARATOR : string.

(** The body of the second memo, lines 108-114. *)
Definition createTitle (props : UseXAxisTitleProps Format) : string :=
  if negb (isSupportedChartForAxisTitles props)
     || bool_decide (xAxisAxisTitle props = Defined ""%string)
     || negb (truthy (xAxisShowAxisTitle props))
  then ""
  else orElse (xAxisAxisTitle props)
         (String.concat AXIS_TITLE_SEPARATOR
            (map (fun x => formatLabel x (contents (columnLabelFormats props) !! x) true)
               (x (selectedAxis props)))).

(** The dependency lists, lines 105 and 115-121. *)
Definition formatsDeps (props : UseXAxisTitleProps Format) : FormatsDeps :=
  (identity (xAxis props), isSupportedChartForAxisTitles props,
   identity (columnLabelFormats props)).

Definition titleDeps (props : UseXAxisTitleProps Format)
    (xAxisColumnLabelFormats : Ref (list (option Format))) : TitleDeps :=
  (xAxisAxisTitle props, isSupportedChartForAxisTitles props,
   xAxisShowAxisTitle props, identity (xAxis props),
   identity xAxisColumnLabelFormats).

(** [useXAxisTitle], lines 95-124: one render of the hook. *)
Definition useXAxisTitle (props : UseXAxisTitleProps Format) (state : HookState Format)
  : string * HookState Format :=
  let xAxisColumnLabelFormats :=
    useMemo (formatsMemo state)
      {| identity := renders state;
         contents := map (fun x => contents (columnLabelFormats props) !! x)
                       (contents (xAxis props)) |}
      (formatsDeps props) in
  let xAxisTitle :=
    useMemo (titleMemo state)
      (createTitle props)
      (titleDeps props (memoized xAxisColumnLabelFormats)) in
  (memoized xAxisTitle,
   {| formatsMemo := Some xAxisColumnLabelFormats;
      titleMemo := Some xAxisTitle;
      renders := S (renders state) |}).

(** The state after the renders of a history, oldest first, and the
    title returned by one more render. *)
Definition rerender (state : HookState Format) (history : list (UseXAxisTitleProps Format))
  : HookState Format :=
  fold_left (fun st props => (useXAxisTitle props st).2) history state.

Definition titleAfter (history : list (UseXAxisTitleProps Format))
    (props : UseXAxisTitleProps Format) : string :=
  (useXAxisTitle props (rerender mount history)).1.

(** The first guard of the title, line 108. *)
Definition blank (props : UseXAxisTitleProps Format) : bool :=
  negb (isSupportedChartForAxisTitles props)
  || bool_decide (xAxisAxisTitle props = Defined ""%string)
  || negb (truthy (xAxisShowAxisTitle props)).

(** The labels of [selectedAxis.x], formatted and joined. *)
Definition joinedLabels (props : UseXAxisTitleProps Format) : string :=
  String.concat AXIS_TITLE_SEPARATOR
    (map (fun x => formatLabel x (contents (columnLabelFormats props) !! x) true)
       (x (selectedAxis props))).

(** The props of two renders agree on everything the title memo is
    keyed on. *)
Definition sameInputs (prev props : UseXAxisTitleProps Format) : bool :=
  bool_decide (xAxisAxisTitle prev = xAxisAxisTitle props)
  && bool_decide (isSupportedChartForAxisTitles prev = isSupportedChartForAxisTitles props)
  && bool_decide (xAxisShowAxisTitle prev = xAxisShowAxisTitle props)
  && bool_decide (identity (xAxis prev) = identity (xAxis props))
  && bool_decide (identity (columnLabelFormats prev) = identity (columnLabelFormats props)).

(** The state a render leaves: both memos filled for the props of that
    render, the array of the first memo older than the render count. *)
Definition settledFor (props : UseXAxisTitleProps Format) (title : string)
    (state : HookState Format) : Prop :=
  exists arr : Ref (list (option Format)),
    formatsMemo state = Some {| deps := formatsDeps props; memoized := arr |} /\
    (identity arr < renders state)%nat /\
    titleMemo state = Some {| deps := titleDeps props arr; memoized := title |}.

End Hook.

End AxisTitle.

(** The title as the description of the hook states it, from the props
    of the current render alone. *)
Definition statedTitle {Format : Type}
    (formatLabel : string -> option Format -> bool -> string)
    (AXIS_TITLE_SEPARATOR : string)
    (props : AxisTitle.UseXAxisTitleProps Format) : string :=
  if AxisTitle.blank props then ""%string
  else match AxisTitle.xAxisAxisTitle props with
       | AxisTitle.Defined s => s
       | AxisTitle.Undefined | AxisTitle.Null =>
           AxisTitle.joinedLabels formatLabel AXIS_TITLE_SEPARATOR props
       end.

(** Two renders of a chart without a custom title: between them the
    selected x column changes while the [xAxis] array handed to the hook
    stays the same object. *)
Module DemoAxis.

Import AxisTitle.

Definition formatLabel (x : string) (_ : option unit) (_ : bool) : string := x.

Definition separator : string := " | ".

Definition firstProps : UseXAxisTitleProps unit :=
  {| xAxis := {| identity := 1; contents := ["month"]%string |};
     columnLabelFormats := {| identity := 2; contents := ∅ |};
     isSupportedChartForAxisTitles := true;
     xAxisAxisTitle := Undefined;
     xAxisShowAxisTitle := Some true;
     selectedAxis := {| x := ["month"]%string |} |}.

Definition secondProps : UseXAxisTitleProps unit :=
  {| xAxis := {| identity := 1; contents := ["month"]%string |};
     columnLabelFormats := {| identity := 2; contents := ∅ |};
     isSupportedChartForAxisTitles := true;
     xAxisAxisTitle := Undefined;
     xAxisShowAxisTitle := Some true;
     selectedAxis := {| x := ["region"; "year"]%string |} |}.

End DemoAxis.

(** ** The remaining hooks of [queryRequests.ts] *)

(** What a query hook hands to [useCreateReactQuery]. *)
Record QueryOptions (Payload HttpError : Type) : Type := {
  queryKey : list string;
  queryFn : Eff Payload HttpError Payload
}.

Arguments queryKey {Payload HttpError} _.
Arguments queryFn {Payload HttpError} _.

(** Truthiness of an optional string argument: absent and empty are
    falsy. *)
Definition truthyString (s : option string) : bool :=
  match s with
  | Some s => negb (String.eqb s "")
  | None => false
  end.

Section QueryHooks.

Context {Payload HttpError : Type}.

(** The request functions of [dataset_groups/requests.ts], defined
    elsewhere in the repository. *)
Variable listDatasetGroups : Eff Payload HttpError Payload.
Variable getDatasetGroup : string -> Eff Payload HttpError Payload.
Variable getDatasetGroupUsers : string -> Eff Payload HttpError Payload.
Variable getDatasetGroupDatasets : string -> Eff Payload HttpError Payload.
Variable getDatasetGroupPermissionGroups : string -> Eff Payload HttpError Payload.

(** Lines 26-32. *)
Definition useListDatasetGroups : QueryOptions Payload HttpError :=
  {| queryKey := ["dataset_groups"%string]; queryFn := listDatasetGroups |}.

(** Lines 60-66. *)
Definition useGetDatasetGroup (datasetId : string) : QueryOptions Payload HttpError :=
  {| queryKey := ["dataset_groups"; datasetId]%string;
     queryFn := getDatasetGroup datasetId |}.

(** Lines 96-102. *)
Definition useGetDatasetGroupUsers (datasetGroupId : string)
  : QueryOptions Payload HttpError :=
  {| queryKey := ["dataset_groups"; datasetGroupId; "users"]%string;
     queryFn := getDatasetGroupUsers datasetGroupId |}.

(** Lines 104-110. *)
Definition useGetDatasetGroupDatasets (datasetGroupId : string)
  : QueryOptions Payload HttpError :=
  {| queryKey := ["dataset_groups"; datasetGroupId; "datasets"]%string;
     queryFn := getDatasetGroupDatasets datasetGroupId |}.

(** Lines 112-118. *)
Definition useGetDatasetGroupPermissionGroups (datasetGroupId : string)
  : QueryOptions Payload HttpError :=
  {| queryKey := ["dataset_groups"; datasetGroupId; "permission_groups"]%string;
     queryFn := getDatasetGroupPermissionGroups datasetGroupId |}.

(** The query hook that reads a member list. *)
Definition membersQuery (m : Members) (datasetGroupId : string)
  : QueryOptions Payload HttpError :=
  match m with
  | Users => useGetDatasetGroupUsers datasetGroupId
  | Datasets => useGetDatasetGroupDatasets datasetGroupId
  | PermissionGroups => useGetDatasetGroupPermissionGroups datasetGroupId
  end.

(** The query keys the hooks of the file register. *)
Inductive registered : list string -> Prop :=
| registered_list : registered (queryKey useListDatasetGroups)
| registered_group (id : string) : registered (queryKey (useGetDatasetGroup id))
| registered_members (m : Members) (id : string) :
    registered (queryKey (membersQuery m id)).

End QueryHooks.

Section CreateHook.

Context {Payload HttpError DatasetGroupData : Type}.

(** [createDatasetGroup] of [./requests] and [updateDatasetDatasetGroups]
    of [../datasets], the field [id] of the created group and the two
    query-key helpers of the [config] modules: all defined elsewhere in
    the repository. *)
Variable createDatasetGroup : DatasetGroupData -> Eff Payload HttpError Payload.
Variable updateDatasetDatasetGroups :
  string -> list Http.Assignment.t -> Eff Payload HttpError Payload.
Variable responseId : Payload -> string.
Variable LIST_DATASET_GROUPS_QUERY_KEY : string.
Variable USER_PERMISSIONS_DATASET_GROUPS_QUERY_KEY : string -> list string.

(** Calling an async function starts it and yields its promise; the
    promise is awaited later. *)
Definition call {A : Type} (f : Eff Payload HttpError A)
  : Eff Payload HttpError (Failure HttpError + A) :=
  fun w => let '(settled, w') := f w in (inr settled, w').

Definition await {A : Type} (promise : Failure HttpError + A) : Eff Payload HttpError A :=
  fun w => (promise, w).

(** [await Promise.all([p1, p2, p3])]: rejected as soon as one of the
    three is. *)
Definition awaitAll {A B C : Type}
    (p1 : Failure HttpError + A) (p2 : Failure HttpError + B)
    (p3 : Failure HttpError + C) : Eff Payload HttpError (A * B * C) :=
  match p1, p2, p3 with
  | inr a, inr b, inr c => mret (a, b, c)
  | inl e, _, _ | _, inl e, _ | _, _, inl e => await (inl e)
  end.

(** Lines 68-94: the [mutationFn] of [useCreateDatasetGroup]. *)
Definition useCreateDatasetGroup (datasetId userId : option string)
    (data : DatasetGroupData) : Eff Payload HttpError Payload :=
  res ← createDatasetGroup data;
  _ ← (match datasetId with
       | Some dataset_id =>
           if truthyString datasetId
           then
             p1 ← call (updateDatasetDatasetGroups dataset_id
                          [ {| Http.Assignment.id := responseId res;
                               Http.Assignment.assigned := true |} ]);
             p2 ← call (invalidateQueries [LIST_DATASET_GROUPS_QUERY_KEY; dataset_id]);
             p3 ← call (invalidateQueries ["dataset_groups"%string]);
             _ ← awaitAll p1 p2 p3;
             mret tt
           else mret tt
       | None => mret tt
       end);
  _ ← (match userId with
       | Some user_id =>
           if truthyString userId
           then invalidateQueries (USER_PERMISSIONS_DATASET_GROUPS_QUERY_KEY user_id)
           else mret tt
       | None => mret tt
       end);
  mret res.

End CreateHook.

(** ** Label style options: [EditLabelStyle] *)

Module EditLabelStyle.

(** The props the option list is computed from. *)
Record Props : Type := {
  columnType : string;
  convertNumberTo : AxisTitle.Optional string
}.

(** [a.filter(Boolean)] on strings that may be absent. *)
Definition filterBoolean (a : list (option string)) : list string :=
  omap (fun o => match o with
                 | Some s => if String.eqb s "" then None else Some s
                 | None => None
                 end) a.

(** Truthiness of [convertNumberTo]. *)
Definition truthy (o : AxisTitle.Optional string) : bool :=
  match o with
  | AxisTitle.Defined s => negb (String.eqb s "")
  | AxisTitle.Undefined | AxisTitle.Null => false
  end.

(** The body of the [enabledOptions] memo. *)
Definition createEnabledOptions (props : Props) : list string :=
  if String.eqb (columnType props) "number"
  then filterBoolean
         [ Some "number"; Some "percent"; Some "currency";
           if truthy (convertNumberTo props) then Some "date" else None ]%string
  else if String.eqb (columnType props) "date"
  then ["date"%string]
  else [].

(** One render: the memo is keyed on [columnType] alone. *)
Definition enabledOptions (props : Props)
    (cell : option (AxisTitle.Memo string (list string)))
  : AxisTitle.Memo string (list string) :=
  AxisTitle.useMemo cell (createEnabledOptions props) (columnType props).

(** The memo cell after the renders of a history, oldest first, and the
    options of one more render. *)
Definition rerender (history : list Props) : option (AxisTitle.Memo string (list string)) :=
  fold_left (fun cell props => Some (enabledOptions props cell)) history None.

Definition optionsAfter (history : list Props) (props : Props) : list string :=
  AxisTitle.memoized (enabledOptions props (rerender history)).

(** [if (enabledOptions.length === 0) return null] *)
Definition rendersNothing (history : list Props) (props : Props) : bool :=
  Nat.eqb (length (optionsAfter history props)) 0.

End EditLabelStyle.

(** The row the updaters of the three member hooks compute from a cached
    row and the update list. *)
Definition updatedRow (L : list Http.Assignment.t) (row : Query.Obj) : Query.Obj :=
  match Js.find (sameId row) L with
  | Some toUpdate => withAssigned row (Http.Assignment.assigned toUpdate)
  | None => row
  end.

(** Requests against the accepting demo server and against one that is
    offline, for the hooks of a dataset group. *)
Module DemoGroups.

Definition offline : list Event -> Http.Request -> string + Http.Response string :=
  fun _ _ => inl "Network Error"%string.

Definition deleteDatasetGroup (id : string) : Eff string string string :=
  res ← mainApi_delete DemoHooks.server ("/dataset_groups/" +:+ id);
  mret (Http.data res).

Definition listDatasetGroups : Eff string string string :=
  res ← mainApi_get DemoHooks.server "/dataset_groups"; mret (Http.data res).

Definition getMembers (segment : string) (id : string) : Eff string string string :=
  res ← mainApi_get DemoHooks.server ("/dataset_groups/" +:+ id +:+ segment);
  mret (Http.data res).

Definition createDatasetGroup (name : string) : Eff string string string :=
  res ← mainApi_post DemoHooks.server "/dataset_groups" (Http.NameObject name);
  mret (Http.data res).

Definition createOffline (name : string) : Eff string string string :=
  res ← mainApi_post offline "/dataset_groups" (Http.NameObject name);
  mret (Http.data res).

Definition assignmentRequest (dataset_id : string) (groups : list Http.Assignment.t)
  : Http.Request :=
  {| Http.method := Http.PUT;
     Http.url := "/datasets/" +:+ dataset_id +:+ "/dataset_groups";
     Http.body := Some (Http.AssignmentList groups) |}.

Definition updateDatasetDatasetGroups
    (client : list Event -> Http.Request -> string + Http.Response string)
    (dataset_id : string) (groups : list Http.Assignment.t) : Eff string string string :=
  res ← send client (assignmentRequest dataset_id groups);
  mret (Http.data res).

Definition userKey (userId : string) : list string :=
  ["users"; userId; "dataset_groups"]%string.

(** The cache of [DemoHooks.world] and the list of all groups. *)
Definition world : World string :=
  {| cache := {[ ["dataset_groups"; "g1"; "users"]%string := DemoHooks.cached;
                 ["dataset_groups"]%string :=
                   {| Query.data := Some (Query.Other "groups"%string);
                      Query.isInvalidated := false |} ]};
     trace := [] |}.

End DemoGroups.

(** A number column whose conversion to a date is switched on after the
    first render. *)
Module DemoStyle.

Definition plainNumber : EditLabelStyle.Props :=
  {| EditLabelStyle.columnType := "number";
     EditLabelStyle.convertNumberTo := AxisTitle.Null |}.

Definition numberAsDate : EditLabelStyle.Props :=
  {| EditLabelStyle.columnType := "number";
     EditLabelStyle.convertNumberTo := AxisTitle.Defined "day_of_week"%string |}.

End DemoStyle.

(** ** Properties *)

(** *** Array helpers *)

Section ArrayFacts.

Context {A : Type}.
Implicit Types (p : A -> bool) (a : list A).

Lemma index_nonneg a (i : Z) (x : A) : Js.index a i = Some x -> 0 <= i.
Proof. unfold Js.index. destruct (Z.ltb_spec i 0); [discriminate | lia]. Qed.

Lemma index_of_nat a (n : nat) : Js.index a (Z.of_nat n) = a !! n.
Proof.
  unfold Js.index. destruct (Z.ltb_spec (Z.of_nat n) 0); [lia|].
  by rewrite Nat2Z.id.
Qed.

Lemma index_elem_of a (i : Z) (x : A) : Js.index a i = Some x -> x ∈ a.
Proof.
  unfold Js.index. destruct (i <? 0); [discriminate|].
  intros H. apply list_elem_of_lookup. eauto.
Qed.

(** [findIndex] returns the least index of an element satisfying the
    predicate, when there is one. *)
Lemma findIndex_from_found p a (start : Z) :
  (exists x, x ∈ a /\ p x = true) ->
  exists (n : nat) (x : A),
    Js.findIndex_from p a start = start + Z.of_nat n /\
    a !! n = Some x /\ p x = true /\
    forall (m : nat) (y : A), (m < n)%nat -> a !! m = Some y -> p y = false.
Proof.
  revert start. induction a as [|x0 rest IH]; intros start [x [Hin Hp]].
  - by apply elem_of_nil in Hin.
  - simpl. destruct (p x0) eqn:Hx0.
    + exists 0%nat, x0. repeat split; [lia | done | intros m y Hm; lia].
    + apply elem_of_cons in Hin as [-> | Hin]; [congruence|].
      destruct (IH (start + 1) (ex_intro _ x (conj Hin Hp)))
        as (n & y & Heq & Hlk & Hpy & Hmin).
      exists (S n), y. repeat split; [lia | done | done |].
      intros [|m] z Hm Hz; simpl in Hz.
      * congruence.
      * apply (Hmin m); [lia | done].
Qed.

Lemma findIndex_found p a :
  (exists x, x ∈ a /\ p x = true) ->
  exists x : A,
    Js.index a (Js.findIndex p a) = Some x /\ p x = true /\
    forall (k : Z) (y : A),
      0 <= k < Js.findIndex p a -> Js.index a k = Some y -> p y = false.
Proof.
  intros Hex. unfold Js.findIndex.
  destruct (findIndex_from_found p a 0 Hex) as (n & x & -> & Hlk & Hp & Hmin).
  exists x. rewrite Z.add_0_l, index_of_nat. repeat split; [done | done |].
  intros k y Hk Hy. apply (Hmin (Z.to_nat k) y); [lia|].
  rewrite <- index_of_nat, Z2Nat.id by lia. done.
Qed.

Lemma findIndex_from_missing p a (start : Z) :
  (forall x, x ∈ a -> p x = false) -> Js.findIndex_from p a start = -1.
Proof.
  revert start. induction a as [|x rest IH]; intros start Hall; [done|].
  simpl. rewrite (Hall x) by apply list_elem_of_here.
  apply IH. intros y Hy. apply Hall. by apply list_elem_of_further.
Qed.

(** Callbacks that do not throw. *)
Lemma someM_pure (cb : A -> Js.completion bool) (f : A -> bool) a :
  (forall x, x ∈ a -> cb x = Js.Return (f x)) ->
  Js.someM cb a = Js.Return (existsb f a).
Proof.
  induction a as [|x rest IH]; intros Hcb; [done|].
  simpl. rewrite (Hcb x) by apply list_elem_of_here. simpl.
  destruct (f x); [done|].
  apply IH. intros y Hy. apply Hcb. by apply list_elem_of_further.
Qed.

Lemma mapM_Forall2 {B : Type} (cb : A -> Js.completion B) (R : A -> B -> Prop) a :
  (forall x, x ∈ a -> exists y, cb x = Js.Return y /\ R x y) ->
  exists ys, Js.mapM cb a = Js.Return ys /\ Forall2 R a ys.
Proof.
  induction a as [|x rest IH]; intros Hcb.
  - exists []. split; [done | constructor].
  - destruct (Hcb x) as (y & Hy & HR); [apply list_elem_of_here|].
    destruct IH as (ys & Hys & HF).
    { intros z Hz. apply Hcb. by apply list_elem_of_further. }
    exists (y :: ys). simpl. rewrite Hy. simpl. rewrite Hys. simpl.
    split; [done | by constructor].
Qed.

Lemma elem_of_List_filter p a (x : A) :
  x ∈ List.filter p a <-> x ∈ a /\ p x = true.
Proof. rewrite !list_elem_of_In. apply filter_In. Qed.

End ArrayFacts.

Section PiePercentage.

Import PieTooltip.

Context {ColumnLabelFormats : Type}.
Variable percentageFormatter : float -> string -> ColumnLabelFormats -> string.

(** C1.  When the series total at dataset index [j] is defined,
    [getPiePercentage] returns the formatter applied to the raw value at
    the data index divided by that total and multiplied by 100 (all in
    double-precision arithmetic, an out-of-range value reading as NaN). *)
Theorem getPiePercentage_formula
    (i j : Z) (d : list float) (label : string)
    (formats : ColumnLabelFormats) (chart : Chart) (total : float) :
  Js.index (seriesTotals (totalizer chart)) j = Some total ->
  getPiePercentage percentageFormatter i j d label formats chart
  = percentageFormatter
      (Js.toNumber (Js.index d i) / total * 100)%float label formats.
Proof.
  intros Htotal. unfold getPiePercentage. rewrite Htotal. reflexivity.
Qed.

End PiePercentage.

(** In the demo chart the first slice of the second series is a quarter
    of its total. *)
Lemma getPiePercentage_formula_witness :
  PieTooltip.getPiePercentage Demo.percentageFormatter 0 1
    [1%float; 3%float] "sales" tt Demo.chart
  = Demo.percentageFormatter 25%float "sales" tt.
Proof.
  exact (getPiePercentage_formula Demo.percentageFormatter 0 1
           [1%float; 3%float] "sales" tt Demo.chart 4%float eq_refl).
Defined.

(** Without a series total at the index (here [-1], no series found)
    the percentage handed to the formatter is NaN. *)
Example getPiePercentage_no_total :
  PieTooltip.getPiePercentage
    (fun (p : float) (_ : string) (_ : unit) =>
       if PrimFloat.is_nan p then "NaN"%string else "a number"%string)
    0 (-1) [1%float; 3%float] "sales" tt Demo.chart
  = "NaN"%string.
Proof. reflexivity. Qed.

(** *** Tooltip items *)

Section PieTooltipItems.

Import PieTooltip.

Context {ColumnLabelFormats : Type}.
Variable percentageFormatter : float -> string -> ColumnLabelFormats -> string.
Variable formatChartLabelDelimiter : string -> ColumnLabelFormats -> string.
Variable formatChartValueDelimiter : Js.num -> string -> ColumnLabelFormats -> string.

Abbreviation helper := (pieTooltipHelper percentageFormatter
                          formatChartLabelDelimiter formatChartValueDelimiter).
Abbreviation describes := (describes percentageFormatter
                             formatChartLabelDelimiter formatChartValueDelimiter).

Lemma label_hidden_match (l : string) (u : ChartDataset) :
  String.eqb (label u) l && hidden u = true <-> hidden u = true /\ label u = l.
Proof.
  rewrite andb_true_iff, String.eqb_eq. tauto.
Qed.

(** The item built for [h] once the hovered dataset is known to exist
    and to carry colours. *)
Lemma tooltipItemOf_active
    (datasets : list ChartDataset) (active : ChartDataset) (di : Z)
    (chart : Chart) (formats : ColumnLabelFormats) (keys : list string)
    (h : ChartDataset) (colors : list string) :
  backgroundColor active = Some colors ->
  tooltipItemOf percentageFormatter formatChartLabelDelimiter
    formatChartValueDelimiter datasets (Some active) di chart formats keys h
  = Js.Return
      {| usePercentage := Js.includes keys (label h);
         color := if String.eqb (label h) (label active)
                  then Js.index colors di else None;
         seriesType := "pie";
         formattedLabel := formatChartLabelDelimiter (label h) formats;
         values :=
           [ {| Value.formattedValue :=
                  formatChartValueDelimiter (Js.index (data h) di) (label h) formats;
                Value.formattedLabel := formatChartLabelDelimiter (label h) formats;
                Value.formattedPercentage :=
                  if Js.includes keys (label h)
                  then Some (getPiePercentage percentageFormatter di
                               (Js.findIndex
                                  (fun dataset =>
                                     String.eqb (label dataset) (label h) && hidden dataset)
                                  datasets)
                               (data h) (label h) formats chart)
                  else None |} ] |}.
Proof.
  intros Hcolors. unfold tooltipItemOf. simpl. rewrite Hcolors.
  destruct (String.eqb (label h) (label active)); reflexivity.
Qed.

Lemma tooltipItemOf_describes
    (datasets : list ChartDataset) (active : ChartDataset) (di : Z)
    (chart : Chart) (formats : ColumnLabelFormats) (keys : list string)
    (h : ChartDataset) (colors : list string) :
  backgroundColor active = Some colors ->
  h ∈ datasets -> hidden h = true ->
  exists item,
    tooltipItemOf percentageFormatter formatChartLabelDelimiter
      formatChartValueDelimiter datasets (Some active) di chart formats keys h
    = Js.Return item /\
    describes datasets active di chart formats keys h item.
Proof.
  intros Hcolors Hin Hhid. eexists. split; [by apply tooltipItemOf_active|].
  unfold describes. rewrite Hcolors. simpl. repeat split.
  eexists. split; [reflexivity|].
  destruct (Js.includes keys (label h)); [|reflexivity].
  set (p := fun dataset : ChartDataset =>
              String.eqb (label dataset) (label h) && hidden dataset).
  destruct (findIndex_found p datasets) as (t & Ht & Hpt & Hmin).
  { exists h. split; [done|]. apply label_hidden_match. done. }
  exists (Js.findIndex p datasets). split; [|reflexivity].
  split.
  - exists t. apply label_hidden_match in Hpt. tauto.
  - intros k u Hk Hu Hmatch. apply label_hidden_match in Hmatch.
    specialize (Hmin k u Hk Hu). unfold p in Hmin. congruence.
Qed.

(** The hovered dataset is looked for among the hidden ones by label. *)
Lemma dataPointIsInTooltip_spec (datasets : list ChartDataset) (active : ChartDataset) :
  existsb (fun dataset => String.eqb (label dataset) (label active))
    (List.filter hidden datasets) = true
  <-> exists h, h ∈ datasets /\ hidden h = true /\ label h = label active.
Proof.
  rewrite existsb_exists. split.
  - intros (h & Hin & Heq). exists h.
    apply list_elem_of_In, elem_of_List_filter in Hin as [Hin Hhid].
    apply String.eqb_eq in Heq. done.
  - intros (h & Hin & Hhid & Heq). exists h. split.
    + apply list_elem_of_In, elem_of_List_filter. done.
    + by apply String.eqb_eq.
Qed.

(** C2, as the code has it.  With a non-empty [dataPoints] whose hovered
    dataset has a [backgroundColor] array and carries the label of some
    hidden dataset, the helper returns one item per hidden dataset of
    [datasets], in their order there, and no other item; each item
    carries the formatted label of its hidden dataset and its formatted
    value at the hovered data index; a percentage, when shown, is taken
    against the series total at the position of the (first) hidden
    dataset with the item's label. *)
Theorem pieTooltipHelper_items
    (datasets : list ChartDataset) (dp : TooltipItem) (rest : list TooltipItem)
    (chart : Chart) (formats : ColumnLabelFormats) (keys : list string)
    (active : ChartDataset) (colors : list string) :
  Js.index datasets (datasetIndex dp) = Some active ->
  backgroundColor active = Some colors ->
  (exists h, h ∈ datasets /\ hidden h = true /\ label h = label active) ->
  exists items : list ITooltipItem,
    helper datasets (dp :: rest) chart formats keys = Js.Return items /\
    Forall2 (describes datasets active (dataIndex dp) chart formats keys)
      (List.filter hidden datasets) items.
Proof.
  intros Hactive Hcolors Hex. unfold pieTooltipHelper. simpl. rewrite Hactive.
  rewrite (someM_pure _ (fun dataset => String.eqb (label dataset) (label active)))
    by reflexivity.
  simpl. apply dataPointIsInTooltip_spec in Hex. rewrite Hex. simpl.
  apply mapM_Forall2. intros h Hh.
  apply elem_of_List_filter in Hh as [Hin Hhid].
  by apply (tooltipItemOf_describes datasets active (dataIndex dp) chart formats
              keys h colors).
Qed.

(** C8.  With a non-empty [dataPoints] whose hovered dataset carries a
    label that no hidden dataset has, the helper returns no item. *)
Theorem pieTooltipHelper_not_in_tooltip
    (datasets : list ChartDataset) (dp : TooltipItem) (rest : list TooltipItem)
    (chart : Chart) (formats : ColumnLabelFormats) (keys : list string)
    (active : ChartDataset) :
  Js.index datasets (datasetIndex dp) = Some active ->
  (forall h, h ∈ datasets -> hidden h = true -> label h <> label active) ->
  helper datasets (dp :: rest) chart formats keys = Js.Return [].
Proof.
  intros Hactive Hnone. unfold pieTooltipHelper. simpl. rewrite Hactive.
  rewrite (someM_pure _ (fun dataset => String.eqb (label dataset) (label active)))
    by reflexivity.
  simpl.
  destruct (existsb _ (List.filter hidden datasets)) eqn:Hsome; [|reflexivity].
  apply dataPointIsInTooltip_spec in Hsome as (h & Hin & Hhid & Heq).
  by destruct (Hnone h Hin Hhid).
Qed.

(** Without a hidden dataset nothing reads the hovered dataset, and the
    result is empty whatever [datasetIndex] is; with one, a
    [datasetIndex] outside [datasets] makes the helper throw, and so does
    an empty [dataPoints]. *)
Lemma pieTooltipHelper_no_hidden
    (datasets : list ChartDataset) (dp : TooltipItem) (rest : list TooltipItem)
    (chart : Chart) (formats : ColumnLabelFormats) (keys : list string) :
  List.filter hidden datasets = [] ->
  helper datasets (dp :: rest) chart formats keys = Js.Return [].
Proof. intros Hnil. unfold pieTooltipHelper. simpl. by rewrite Hnil. Qed.

Lemma pieTooltipHelper_dangling
    (datasets : list ChartDataset) (dp : TooltipItem) (rest : list TooltipItem)
    (chart : Chart) (formats : ColumnLabelFormats) (keys : list string) :
  Js.index datasets (datasetIndex dp) = None ->
  List.filter hidden datasets <> [] ->
  helper datasets (dp :: rest) chart formats keys = Js.Throw Js.TypeError.
Proof.
  intros Hnone Hne. unfold pieTooltipHelper. simpl. rewrite Hnone.
  destruct (List.filter hidden datasets); [done | reflexivity].
Qed.

Lemma pieTooltipHelper_no_dataPoints
    (datasets : list ChartDataset) (chart : Chart)
    (formats : ColumnLabelFormats) (keys : list string) :
  helper datasets [] chart formats keys = Js.Throw Js.TypeError.
Proof. reflexivity. Qed.

End PieTooltipItems.

(** The demo chart, hovering the visible "sales" slice: one item for each
    of the two hidden series. *)
Lemma pieTooltipHelper_items_witness :
  exists items : list PieTooltip.ITooltipItem,
    PieTooltip.pieTooltipHelper Demo.percentageFormatter
      Demo.formatChartLabelDelimiter Demo.formatChartValueDelimiter
      Demo.datasets [Demo.hoverSales] Demo.chart tt ["sales"%string]
    = Js.Return items /\
    Forall2
      (describes Demo.percentageFormatter Demo.formatChartLabelDelimiter
         Demo.formatChartValueDelimiter Demo.datasets Demo.visibleSales 0
         Demo.chart tt ["sales"%string])
      [Demo.hiddenSales; Demo.hiddenCost] items.
Proof.
  apply (pieTooltipHelper_items Demo.percentageFormatter
           Demo.formatChartLabelDelimiter Demo.formatChartValueDelimiter
           Demo.datasets Demo.hoverSales [] Demo.chart tt ["sales"%string]
           Demo.visibleSales ["red"; "blue"]%string).
  - reflexivity.
  - reflexivity.
  - exists Demo.hiddenSales. split; [|split; reflexivity].
    apply list_elem_of_further, list_elem_of_here.
Defined.

(** The same hover on a "sales" series without colours: the dataset is
    there and a hidden dataset carries its label, yet no list of items
    comes back, the helper throws. *)
Lemma pieTooltipHelper_items_no_backgroundColor :
  Js.index Demo.bareDatasets (PieTooltip.datasetIndex Demo.hoverSales)
  = Some Demo.bareSales /\
  (exists h, h ∈ Demo.bareDatasets /\ PieTooltip.hidden h = true /\
             PieTooltip.label h = PieTooltip.label Demo.bareSales) /\
  PieTooltip.pieTooltipHelper Demo.percentageFormatter
    Demo.formatChartLabelDelimiter Demo.formatChartValueDelimiter
    Demo.bareDatasets [Demo.hoverSales] Demo.chart tt ["sales"%string]
  = Js.Throw Js.TypeError /\
  ~ (exists items : list PieTooltip.ITooltipItem,
       PieTooltip.pieTooltipHelper Demo.percentageFormatter
         Demo.formatChartLabelDelimiter Demo.formatChartValueDelimiter
         Demo.bareDatasets [Demo.hoverSales] Demo.chart tt ["sales"%string]
       = Js.Return items).
Proof.
  split; [reflexivity|]. split.
  - exists Demo.hiddenSales. split; [|split; reflexivity].
    apply list_elem_of_further, list_elem_of_here.
  - split; [reflexivity|]. intros [items Hitems]. discriminate Hitems.
Qed.

(** The demo chart, hovering the "other" slice, which has no hidden
    counterpart. *)
Lemma pieTooltipHelper_not_in_tooltip_witness :
  PieTooltip.pieTooltipHelper Demo.percentageFormatter
    Demo.formatChartLabelDelimiter Demo.formatChartValueDelimiter
    Demo.datasets [Demo.hoverOther] Demo.chart tt ["sales"%string]
  = Js.Return [].
Proof.
  apply (pieTooltipHelper_not_in_tooltip Demo.percentageFormatter
           Demo.formatChartLabelDelimiter Demo.formatChartValueDelimiter
           Demo.datasets Demo.hoverOther [] Demo.chart tt ["sales"%string]
           Demo.visibleOther).
  - reflexivity.
  - intros h Hin Hhid Hlabel.
    unfold Demo.datasets in Hin.
    repeat (apply elem_of_cons in Hin as [-> | Hin]); try discriminate.
    by apply elem_of_nil in Hin.
Defined.

(** The same chart evaluated: the active series carries the slice colour
    and, being listed for percentages, 1 of 4 as 25 percent. *)
Example pieTooltipHelper_demo :
  PieTooltip.pieTooltipHelper Demo.percentageFormatter
    Demo.formatChartLabelDelimiter Demo.formatChartValueDelimiter
    Demo.datasets [Demo.hoverSales] Demo.chart tt ["sales"%string]
  = Js.Return
      [ {| PieTooltip.usePercentage := true;
           PieTooltip.color := Some "red"%string;
           PieTooltip.seriesType := "pie";
           PieTooltip.formattedLabel := "sales";
           PieTooltip.values :=
             [ {| PieTooltip.Value.formattedValue := "1";
                  PieTooltip.Value.formattedLabel := "sales";
                  PieTooltip.Value.formattedPercentage := Some "25%"%string |} ] |};
        {| PieTooltip.usePercentage := false;
           PieTooltip.color := None;
           PieTooltip.seriesType := "pie";
           PieTooltip.formattedLabel := "cost";
           PieTooltip.values :=
             [ {| PieTooltip.Value.formattedValue := "2";
                  PieTooltip.Value.formattedLabel := "cost";
                  PieTooltip.Value.formattedPercentage := None |} ] |} ].
Proof. vm_compute. reflexivity. Qed.

(** *** The rows of the user dataset list *)

Section UserDatasetsRows.

Import UserDatasetsList.

Variable createBusterRoute : string -> string.

Abbreviation rowOf := (rowOf createBusterRoute).
Abbreviation reducer := (reducer createBusterRoute).

(** The [reduce] splits the input into its assigned and its unassigned
    datasets, each in input order. *)
Lemma reduce_partition (ds : list Dataset.t) (acc : Partition) :
  fold_left reducer ds acc
  = {| cannotQueryPermissionUsers :=
         cannotQueryPermissionUsers acc ++ map rowOf (List.filter unassigned ds);
       canQueryPermissionUsers :=
         canQueryPermissionUsers acc ++ map rowOf (List.filter Dataset.assigned ds) |}.
Proof.
  revert acc. induction ds as [|d ds IH]; intros acc; simpl.
  - rewrite !app_nil_r. by destruct acc.
  - rewrite IH. unfold UserDatasetsList.reducer, unassigned.
    destruct (Dataset.assigned d); simpl; by rewrite <- ?app_assoc.
Qed.

Lemma partitionDatasets_spec (ds : list Dataset.t) :
  partitionDatasets createBusterRoute ds
  = {| cannotQueryPermissionUsers := map rowOf (List.filter unassigned ds);
       canQueryPermissionUsers := map rowOf (List.filter Dataset.assigned ds) |}.
Proof. unfold partitionDatasets. by rewrite reduce_partition. Qed.

Lemma shown_rows (ds : list Dataset.t) :
  List.filter shown (map rowOf ds) = map rowOf ds.
Proof. induction ds as [|d ds IH]; simpl; [done | by rewrite IH]. Qed.

Lemma filter_empty_iff (p : Dataset.t -> bool) (ds : list Dataset.t) :
  Nat.eqb (length (map rowOf (List.filter p ds))) 0 = negb (existsb p ds).
Proof.
  induction ds as [|d ds IH]; simpl; [done|].
  destruct (p d); simpl; [done | exact IH].
Qed.

Lemma data_rows (ds : list Dataset.t) : omap Row.data (map rowOf ds) = ds.
Proof. induction ds as [|d ds IH]; [done | cbn; by f_equal]. Qed.

Lemma filter_split_Permutation (ds : list Dataset.t) :
  List.filter Dataset.assigned ds ++ List.filter unassigned ds ≡ₚ ds.
Proof.
  induction ds as [|d ds IH]; simpl; [done|].
  unfold unassigned at 1. destruct (Dataset.assigned d); simpl.
  - by rewrite IH.
  - by rewrite <- Permutation_middle, IH.
Qed.

Lemma shown_header (id title : string) (p : Dataset.t -> bool) (ds : list Dataset.t) :
  List.filter shown [sectionHeader id title (map rowOf (List.filter p ds))]
  = if existsb p ds
    then [ {| Row.id := id; Row.data := None; Row.link := None;
              Row.hidden := Some false;
              Row.rowSection :=
                Some {| title := title;
                        secondaryTitle :=
                          toString (length (map rowOf (List.filter p ds))) |} |} ]
    else [].
Proof.
  unfold sectionHeader, shown. cbn [List.filter Row.hidden].
  rewrite filter_empty_iff. by destruct (existsb p ds).
Qed.

(** C9.  The row list is: the "Assigned" header when some dataset is
    assigned, the rows of the assigned datasets in input order, the
    "Not Assigned" header when some dataset is not assigned, the rows of
    the unassigned datasets in input order; each header's secondary title
    is the decimal numeral of the length of its section, and the dataset
    rows are the input datasets, each exactly once. *)
Theorem rows_layout (ds : list Dataset.t) :
  let assignedRows := map rowOf (List.filter Dataset.assigned ds) in
  let otherRows := map rowOf (List.filter unassigned ds) in
  let header (id title : string) (section : list Row.t) : Row.t :=
    {| Row.id := id; Row.data := None; Row.link := None;
       Row.hidden := Some false;
       Row.rowSection :=
         Some {| title := title; secondaryTitle := toString (length section) |} |} in
  rows createBusterRoute ds
  = (if existsb Dataset.assigned ds
     then [header "header-assigned" "Assigned" assignedRows] else [])
    ++ assignedRows
    ++ (if existsb unassigned ds
        then [header "header-not-assigned" "Not Assigned" otherRows] else [])
    ++ otherRows
  /\ omap Row.data (rows createBusterRoute ds)
     = List.filter Dataset.assigned ds ++ List.filter unassigned ds
  /\ omap Row.data (rows createBusterRoute ds) ≡ₚ ds.
Proof.
  intros assignedRows otherRows header.
  assert (Hrows : rows createBusterRoute ds
    = (if existsb Dataset.assigned ds
       then [header "header-assigned" "Assigned" assignedRows] else [])
      ++ assignedRows
      ++ (if existsb unassigned ds
          then [header "header-not-assigned" "Not Assigned" otherRows] else [])
      ++ otherRows).
  { unfold rows. rewrite partitionDatasets_spec.
    cbn [canQueryPermissionUsers cannotQueryPermissionUsers].
    rewrite !List.filter_app, !shown_header, !shown_rows. reflexivity. }
  assert (Hdata : omap Row.data (rows createBusterRoute ds)
    = List.filter Dataset.assigned ds ++ List.filter unassigned ds).
  { rewrite Hrows, !omap_app. unfold assignedRows, otherRows.
    rewrite !data_rows.
    destruct (existsb Dataset.assigned ds), (existsb unassigned ds); reflexivity. }
  split; [exact Hrows | split; [exact Hdata|]].
  rewrite Hdata. apply filter_split_Permutation.
Qed.

End UserDatasetsRows.

(** Two assigned datasets around an unassigned one. *)
Example rows_demo :
  let d (i : string) (a : bool) :=
    {| UserDatasetsList.Dataset.id := i;
       UserDatasetsList.Dataset.name := i;
       UserDatasetsList.Dataset.assigned := a |} in
  map UserDatasetsList.Row.id
    (UserDatasetsList.rows (String.append "/users/")
       [d "a" true; d "b" false; d "c" true])
  = ["header-assigned"; "a"; "c"; "header-not-assigned"; "b"]%string
  /\ map UserDatasetsList.Row.id
       (UserDatasetsList.rows (String.append "/users/") [d "a" true; d "c" true])
     = ["header-assigned"; "a"; "c"]%string
  /\ UserDatasetsList.rows (String.append "/users/") [] = [].
Proof. repeat split. Qed.

(** *** The permission-group requests *)

Section PermissionGroupRequests.

Context {Payload HttpError : Type}.
Variable mainApi : list Event -> Http.Request -> HttpError + Http.Response Payload.

Abbreviation performs := (performs mainApi).

(** [mainApi.m(...).then((res) => res.data)] *)
Lemma send_then_data (request : Http.Request) :
  performs (res ← send mainApi request; mret (Http.data res)) request.
Proof.
  intros w. unfold mbind, Eff_bind, mret, Eff_ret, send, settle, afterRequest.
  destruct (mainApi (trace w) request); reflexivity.
Qed.

Lemma invoke_performs (c : Call) : performs (invoke mainApi c) (endpoint c).
Proof. destruct c; apply send_then_data. Qed.

(** A request function leaves the cache alone and adds one event. *)
Lemma performs_one_event (f : Eff Payload HttpError Payload) (request : Http.Request)
    (w : World Payload) :
  performs f request ->
  cache (f w).2 = cache w /\ trace (f w).2 = trace w ++ [Sent request].
Proof. intros Hf. rewrite Hf. done. Qed.

(** C4.  The three assignment updates each hand one PUT to the client,
    to [/permission_groups/{id}/users], [.../datasets] and
    [.../dataset_groups], with the list as its body, and settle with the
    response's data. *)
Theorem updatePermissionGroup_assignments_put
    (id : string) (data : list Http.Assignment.t) :
  performs (updatePermissionGroupUsers mainApi id data)
    {| Http.method := Http.PUT;
       Http.url := "/permission_groups/" +:+ id +:+ "/users";
       Http.body := Some (Http.AssignmentList data) |} /\
  performs (updatePermissionGroupDatasets mainApi id data)
    {| Http.method := Http.PUT;
       Http.url := "/permission_groups/" +:+ id +:+ "/datasets";
       Http.body := Some (Http.AssignmentList data) |} /\
  performs (updatePermissionGroupDatasetGroups mainApi id data)
    {| Http.method := Http.PUT;
       Http.url := "/permission_groups/" +:+ id +:+ "/dataset_groups";
       Http.body := Some (Http.AssignmentList data) |}.
Proof.
  split; [|split].
  - apply (invoke_performs (UpdatePermissionGroupUsers id data)).
  - apply (invoke_performs (UpdatePermissionGroupDatasets id data)).
  - apply (invoke_performs (UpdatePermissionGroupDatasetGroups id data)).
Qed.

(** C5.  The five CRUD functions each hand one request to the client,
    with the documented method, path and body, and settle with the
    response's data. *)
Theorem permissionGroup_crud_requests
    (id name : string) (data : list Http.Renaming.t) :
  performs (listAllPermissionGroups mainApi)
    {| Http.method := Http.GET; Http.url := "/permission_groups";
       Http.body := None |} /\
  performs (getPermissionGroup mainApi id)
    {| Http.method := Http.GET; Http.url := "/permission_groups/" +:+ id;
       Http.body := None |} /\
  performs (createPermissionGroup mainApi name)
    {| Http.method := Http.POST; Http.url := "/permission_groups";
       Http.body := Some (Http.NameObject name) |} /\
  performs (updatePermissionGroups mainApi id data)
    {| Http.method := Http.PUT; Http.url := "/permission_groups/" +:+ id;
       Http.body := Some (Http.RenamingList data) |} /\
  performs (deletePermissionGroup mainApi id)
    {| Http.method := Http.DELETE; Http.url := "/permission_groups/" +:+ id;
       Http.body := None |}.
Proof.
  repeat split.
  - apply (invoke_performs ListAllPermissionGroups).
  - apply (invoke_performs (GetPermissionGroup id)).
  - apply (invoke_performs (CreatePermissionGroup name)).
  - apply (invoke_performs (UpdatePermissionGroups id data)).
  - apply (invoke_performs (DeletePermissionGroup id)).
Qed.

(** C6.  When the client rejects the request of a call with [e], the
    call rejects with that same [e]; the request has been handed to the
    client once and nothing else has happened. *)
Theorem requests_reject_with_client_error
    (c : Call) (w : World Payload) (e : HttpError) :
  mainApi (trace w) (endpoint c) = inl e ->
  invoke mainApi c w
  = (inl (Rejected e),
     {| cache := cache w; trace := trace w ++ [Sent (endpoint c)] |}).
Proof.
  intros Hfail. rewrite (invoke_performs c w), Hfail. reflexivity.
Qed.

End PermissionGroupRequests.

(** A client that is offline rejects every request. *)
Lemma requests_reject_with_client_error_witness :
  let offline : list Event -> Http.Request -> string + Http.Response unit :=
    fun _ _ => inl "Network Error"%string in
  let c := UpdatePermissionGroupUsers "pg1"
             [ {| Http.Assignment.id := "u1"; Http.Assignment.assigned := true |} ] in
  invoke offline c {| cache := ∅; trace := [] |}
  = (inl (Rejected "Network Error"%string),
     {| cache := ∅;
        trace := [Sent {| Http.method := Http.PUT;
                          Http.url := "/permission_groups/pg1/users";
                          Http.body :=
                            Some (Http.AssignmentList
                                    [ {| Http.Assignment.id := "u1";
                                         Http.Assignment.assigned := true |} ]) |}] |}).
Proof.
  exact (requests_reject_with_client_error
           (fun _ _ => inl "Network Error"%string)
           (UpdatePermissionGroupUsers "pg1"
              [ {| Http.Assignment.id := "u1"; Http.Assignment.assigned := true |} ])
           {| cache := ∅; trace := [] |} "Network Error"%string eq_refl).
Defined.

(** *** The dataset-group hooks *)

Section ArraySearch.

Context {A : Type}.

(** [find] returns the first element satisfying the predicate. *)
Lemma find_Some (p : A -> bool) (a : list A) (x : A) :
  Js.find p a = Some x <->
  exists n : nat,
    a !! n = Some x /\ p x = true /\
    forall (m : nat) (y : A), (m < n)%nat -> a !! m = Some y -> p y = false.
Proof.
  induction a as [|x0 rest IH]; simpl.
  - split; [discriminate | intros (n & Hn & _); by destruct n].
  - destruct (p x0) eqn:Hx0.
    + split.
      * intros [= <-]. exists 0%nat. repeat split; [done|]. intros m y Hm; lia.
      * intros ([|n] & Hn & Hp & Hmin); simpl in Hn; [congruence|].
        specialize (Hmin 0%nat x0 ltac:(lia) eq_refl). congruence.
    + rewrite IH. split.
      * intros (n & Hn & Hp & Hmin). exists (S n). repeat split; [done..|].
        intros [|m] y Hm Hy; simpl in Hy; [congruence|].
        apply (Hmin m); [lia | done].
      * intros ([|n] & Hn & Hp & Hmin); simpl in Hn; [congruence|].
        exists n. repeat split; [done..|].
        intros m y Hm Hy. apply (Hmin (S m)); [lia | done].
Qed.

Lemma find_None (p : A -> bool) (a : list A) :
  Js.find p a = None <-> forall x, x ∈ a -> p x = false.
Proof.
  induction a as [|x0 rest IH]; simpl.
  - split; [intros _ x Hx; by apply elem_of_nil in Hx | done].
  - destruct (p x0) eqn:Hx0.
    + split; [discriminate|]. intros Hall.
      specialize (Hall x0 (list_elem_of_here _ _)). congruence.
    + rewrite IH. split.
      * intros Hall x Hx. apply elem_of_cons in Hx as [-> | Hx]; auto.
      * intros Hall x Hx. apply Hall. by apply list_elem_of_further.
Qed.

End ArraySearch.

Lemma sameId_true (row : Query.Obj) (d : Http.Assignment.t) :
  sameId row d = true <->
  row !! "id"%string = Some (Query.VStr (Http.Assignment.id d)).
Proof. unfold sameId. apply bool_decide_eq_true. Qed.

Lemma sameId_false (row : Query.Obj) (d : Http.Assignment.t) :
  sameId row d = false <->
  row !! "id"%string <> Some (Query.VStr (Http.Assignment.id d)).
Proof. unfold sameId. apply bool_decide_eq_false. Qed.

Lemma find_speaksFor (L : list Http.Assignment.t) (row : Query.Obj)
    (d : Http.Assignment.t) :
  Js.find (sameId row) L = Some d <-> speaksFor L row d.
Proof.
  rewrite find_Some. unfold speaksFor.
  split; intros (n & Hn & Hid & Hmin); exists n; (split; [done|]).
  - split; [by apply sameId_true|].
    intros m d' Hm Hd'. apply sameId_false. by apply (Hmin m).
  - split; [by apply sameId_true|].
    intros m d' Hm Hd'. apply sameId_false. by apply (Hmin m).
Qed.

(** The callback of the three [oldData.map] calls. *)
Lemma updater_reassigned (L : list Http.Assignment.t) (row : Query.Obj) :
  reassigned L row
    (match Js.find (sameId row) L with
     | Some toUpdate => withAssigned row (Http.Assignment.assigned toUpdate)
     | None => row
     end).
Proof.
  destruct (Js.find (sameId row) L) as [d0|] eqn:Hfind; split.
  - intros d Hd. apply find_speaksFor in Hd.
    assert (d = d0) as -> by congruence. unfold withAssigned. split.
    + apply lookup_insert_eq.
    + intros field Hfield. by apply lookup_insert_ne.
  - intros Hnone. apply find_speaksFor in Hfind as (n & Hn & Hid & _).
    destruct (Hnone d0); [|done]. apply list_elem_of_lookup. eauto.
  - intros d Hd. apply find_speaksFor in Hd. congruence.
  - done.
Qed.

Section DatasetGroupHooks.

Context {Payload HttpError DatasetGroupUpdate : Type}.
Variable deleteDatasetGroup : string -> Eff Payload HttpError Payload.
Variable updateDatasetGroup : DatasetGroupUpdate -> Eff Payload HttpError Payload.
Variable updateDatasetGroupUsers :
  string -> list Http.Assignment.t -> Eff Payload HttpError Payload.
Variable updateDatasetGroupDatasets :
  string -> list Http.Assignment.t -> Eff Payload HttpError Payload.
Variable updateDatasetGroupPermissionGroups :
  string -> list Http.Assignment.t -> Eff Payload HttpError Payload.

(** What invalidation does to a cached query. *)
Lemma afterInvalidation_lookup (queryKey key : list string) (w : World Payload) :
  cache (afterInvalidation queryKey w) !! key
  = (fun q : Query.State Payload =>
       if bool_decide (queryKey `prefix_of` key)
       then {| Query.data := Query.data q; Query.isInvalidated := true |}
       else q) <$> cache w !! key.
Proof.
  unfold afterInvalidation. cbn [cache]. rewrite map_lookup_imap.
  by destruct (cache w !! key).
Qed.

Lemma useDeleteDatasetGroup_thenInvalidate (id : string) (w : World Payload) :
  useDeleteDatasetGroup deleteDatasetGroup id w
  = thenInvalidate ["dataset_groups"%string] (deleteDatasetGroup id w).
Proof.
  unfold useDeleteDatasetGroup, thenInvalidate, mbind, Eff_bind.
  destruct (deleteDatasetGroup id w) as [[e|res] w']; reflexivity.
Qed.

Lemma useUpdateDatasetGroup_thenInvalidate (data : DatasetGroupUpdate) (w : World Payload) :
  useUpdateDatasetGroup updateDatasetGroup data w
  = thenInvalidate ["dataset_groups"%string] (updateDatasetGroup data w).
Proof.
  unfold useUpdateDatasetGroup, thenInvalidate, mbind, Eff_bind.
  destruct (updateDatasetGroup data w) as [[e|res] w']; reflexivity.
Qed.

(** C7.  The mutations of [useDeleteDatasetGroup] and
    [useUpdateDatasetGroup] run the request first; when it fulfils they
    invalidate the queries under ['dataset_groups'] in the world it left
    and fulfil with its result; when it rejects they reject with its
    error in the world it left, without invalidating. *)
Theorem invalidate_after_request :
  (forall (id : string) (w : World Payload),
     useDeleteDatasetGroup deleteDatasetGroup id w
     = thenInvalidate ["dataset_groups"%string] (deleteDatasetGroup id w)) /\
  (forall (data : DatasetGroupUpdate) (w : World Payload),
     useUpdateDatasetGroup updateDatasetGroup data w
     = thenInvalidate ["dataset_groups"%string] (updateDatasetGroup data w)).
Proof.
  split.
  - exact useDeleteDatasetGroup_thenInvalidate.
  - exact useUpdateDatasetGroup_thenInvalidate.
Qed.

(** When the request is a single call of the client, the events of a
    deletion are the request and then, if it succeeded, the
    invalidation. *)
Lemma useDeleteDatasetGroup_events
    (mainApi : list Event -> Http.Request -> HttpError + Http.Response Payload)
    (request : Http.Request) (id : string) (w : World Payload) :
  performs mainApi (deleteDatasetGroup id) request ->
  trace (useDeleteDatasetGroup deleteDatasetGroup id w).2
  = match mainApi (trace w) request with
    | inr _ => trace w ++ [Sent request; Invalidated ["dataset_groups"%string]]
    | inl _ => trace w ++ [Sent request]
    end.
Proof.
  intros Hreq. rewrite useDeleteDatasetGroup_thenInvalidate, Hreq.
  destruct (mainApi (trace w) request); simpl; [done|].
  by rewrite <- app_assoc.
Qed.

Abbreviation mutation :=
  (membersMutation updateDatasetGroupUsers updateDatasetGroupDatasets
     updateDatasetGroupPermissionGroups).
Abbreviation request :=
  (membersRequest updateDatasetGroupUsers updateDatasetGroupDatasets
     updateDatasetGroupPermissionGroups).

(** C3.  With a list of rows cached for the hook's key, the mutation
    writes a list of the same length and order in which every row is
    reassigned as the update list says, and the request function runs in
    the world that already holds this write. *)
Theorem optimistic_assignment
    (m : Members) (datasetGroupId : string) (L : list Http.Assignment.t)
    (w : World Payload) (q : Query.State Payload) (oldData : list Query.Obj) :
  cache w !! membersKey m datasetGroupId = Some q ->
  Query.data q = Some (Query.Rows oldData) ->
  exists newData : list Query.Obj,
    mutation m datasetGroupId L w
    = request m datasetGroupId L
        (afterCacheSet (membersKey m datasetGroupId) newData w) /\
    Forall2 (reassigned L) oldData newData.
Proof.
  intros Hq Hdata.
  exists (map (fun row =>
                 match Js.find (sameId row) L with
                 | Some toUpdate => withAssigned row (Http.Assignment.assigned toUpdate)
                 | None => row
                 end) oldData).
  split.
  - destruct m; cbn [membersMutation membersRequest membersKey] in *;
      unfold useUpdateDatasetGroupUsers, useUpdateDatasetGroupDatasets,
        useUpdateDatasetGroupPermissionGroups, mbind, Eff_bind, setQueryData;
      rewrite Hq; cbn [option_bind mbind]; simpl; rewrite Hdata; reflexivity.
  - apply Forall2_fmap_r, Forall_Forall2_diag, Forall_forall.
    intros row _. apply updater_reassigned.
Qed.

(** Without rows cached under the key the updater throws, and the
    request is never made. *)
Lemma optimistic_assignment_no_rows
    (m : Members) (datasetGroupId : string) (L : list Http.Assignment.t)
    (w : World Payload) :
  cache w !! membersKey m datasetGroupId = None ->
  mutation m datasetGroupId L w = (inl (Thrown Js.TypeError), w).
Proof.
  intros Hq.
  destruct m; cbn [membersMutation membersKey] in *;
    unfold useUpdateDatasetGroupUsers, useUpdateDatasetGroupDatasets,
      useUpdateDatasetGroupPermissionGroups, mbind, Eff_bind, setQueryData;
    rewrite Hq; reflexivity.
Qed.

End DatasetGroupHooks.

(** Assigning Ann in the demo group. *)
Lemma optimistic_assignment_witness :
  exists newData : list Query.Obj,
    useUpdateDatasetGroupUsers (DemoHooks.put "/users") "g1" DemoHooks.assignAnn
      DemoHooks.world
    = DemoHooks.put "/users" "g1" DemoHooks.assignAnn
        (afterCacheSet ["dataset_groups"; "g1"; "users"]%string newData DemoHooks.world) /\
    Forall2 (reassigned DemoHooks.assignAnn) [DemoHooks.ann; DemoHooks.bob] newData.
Proof.
  apply (optimistic_assignment (DemoHooks.put "/users") (DemoHooks.put "/datasets")
           (DemoHooks.put "/permission_groups") Users "g1" DemoHooks.assignAnn
           DemoHooks.world DemoHooks.cached [DemoHooks.ann; DemoHooks.bob]).
  - vm_compute. reflexivity.
  - reflexivity.
Defined.

(** The same run evaluated: the cache write comes before the PUT, Ann is
    assigned and keeps her name, Bob is as he was. *)
Example optimistic_assignment_demo :
  let '(result, w) :=
    useUpdateDatasetGroupUsers (DemoHooks.put "/users") "g1" DemoHooks.assignAnn
      DemoHooks.world in
  result = inr "ok"%string /\
  trace w
  = [ CacheSet ["dataset_groups"; "g1"; "users"]%string;
      Sent {| Http.method := Http.PUT;
              Http.url := "/dataset_groups/g1/users";
              Http.body := Some (Http.AssignmentList DemoHooks.assignAnn) |} ] /\
  cache w !! ["dataset_groups"; "g1"; "users"]%string
  = Some {| Query.data :=
              Some (Query.Rows
                      [ <["assigned"%string := Query.VBool true]> DemoHooks.ann;
                        DemoHooks.bob ]);
            Query.isInvalidated := false |}.
Proof. vm_compute. repeat split. Qed.

(** *** The axis title across renders *)

Section AxisTitleRenders.

Import AxisTitle.

Context {Format : Type}.

Lemma sameInputs_true (prev props : UseXAxisTitleProps Format) :
  sameInputs prev props = true <->
  xAxisAxisTitle prev = xAxisAxisTitle props /\
  isSupportedChartForAxisTitles prev = isSupportedChartForAxisTitles props /\
  xAxisShowAxisTitle prev = xAxisShowAxisTitle props /\
  identity (xAxis prev) = identity (xAxis props) /\
  identity (columnLabelFormats prev) = identity (columnLabelFormats props).
Proof.
  unfold sameInputs. rewrite !andb_true_iff, !bool_decide_eq_true. tauto.
Qed.

Variable formatLabel : string -> option Format -> bool -> string.
Variable AXIS_TITLE_SEPARATOR : string.

Abbreviation useXAxisTitle := (useXAxisTitle formatLabel AXIS_TITLE_SEPARATOR).
Abbreviation createTitle := (createTitle formatLabel AXIS_TITLE_SEPARATOR).
Abbreviation titleAfter := (titleAfter formatLabel AXIS_TITLE_SEPARATOR).
Abbreviation rerender := (rerender formatLabel AXIS_TITLE_SEPARATOR).
Abbreviation joinedLabels := (joinedLabels formatLabel AXIS_TITLE_SEPARATOR).

Implicit Types (props prev : UseXAxisTitleProps Format) (state : HookState Format).

Lemma first_render props :
  (useXAxisTitle props mount).1 = createTitle props /\
  settledFor props (createTitle props) (useXAxisTitle props mount).2.
Proof.
  split; [reflexivity|].
  eexists. split; [reflexivity | split; [cbn; lia | reflexivity]].
Qed.

Lemma next_render prev props (title : string) state :
  settledFor prev title state ->
  (useXAxisTitle props state).1
  = (if sameInputs prev props then title else createTitle props) /\
  settledFor props (useXAxisTitle props state).1 (useXAxisTitle props state).2.
Proof.
  intros (arr & Hformats & Hfresh & Htitle).
  unfold AxisTitle.useXAxisTitle. rewrite Hformats, Htitle.
  unfold useMemo. cbn [deps memoized fst snd].
  destruct (decide (formatsDeps prev = formatsDeps props)) as [Hd|Hd];
    cbn [memoized identity];
    match goal with
    | |- context [decide (titleDeps prev arr = ?d)] =>
        destruct (decide (titleDeps prev arr = d)) as [Ht|Ht]
    end; cbn [memoized] in *.
  - (* nothing the memos are keyed on has changed *)
    rewrite (proj2 (sameInputs_true prev props)).
    + split; [reflexivity|]. exists arr. cbn [formatsMemo titleMemo renders].
      split; [by rewrite Hd|]. split; [lia|]. by rewrite Ht.
    + unfold formatsDeps in Hd. unfold titleDeps in Ht.
      repeat split; congruence.
  - (* the title, the flag or the array of x columns has changed *)
    destruct (sameInputs prev props) eqn:Hsame.
    + apply sameInputs_true in Hsame as (H1 & H2 & H3 & H4 & H5).
      destruct Ht. unfold titleDeps. congruence.
    + split; [reflexivity|]. exists arr. cbn [formatsMemo titleMemo renders].
      split; [by rewrite Hd|]. split; [lia | reflexivity].
  - (* a new array of formats has a new identity *)
    unfold titleDeps in Ht. cbn [identity] in Ht.
    assert (identity arr = renders state) by congruence. lia.
  - destruct (sameInputs prev props) eqn:Hsame.
    + apply sameInputs_true in Hsame as (H1 & H2 & H3 & H4 & H5).
      destruct Hd. unfold formatsDeps. congruence.
    + split; [reflexivity|].
      eexists. split; [reflexivity | split; [cbn; lia | reflexivity]].
Qed.

Lemma rerender_snoc state (history : list (UseXAxisTitleProps Format)) props :
  rerender state (history ++ [props])
  = (useXAxisTitle props (rerender state history)).2.
Proof. unfold AxisTitle.rerender. by rewrite fold_left_app. Qed.

Lemma rerender_settled (history : list (UseXAxisTitleProps Format)) props :
  settledFor props (titleAfter history props)
    (useXAxisTitle props (rerender mount history)).2.
Proof.
  unfold AxisTitle.titleAfter.
  revert props. induction history as [|prev history IH] using rev_ind; intros props.
  - apply first_render.
  - rewrite rerender_snoc. by apply (next_render prev props _ _ (IH prev)).
Qed.

(** A render returns a new title when it is the first one or when one of
    the inputs the memo is keyed on differs from the previous render, and
    the previous title otherwise. *)
Lemma titleAfter_unfold (history : list (UseXAxisTitleProps Format)) props :
  titleAfter history props
  = match last history with
    | None => createTitle props
    | Some prev =>
        if sameInputs prev props
        then titleAfter (removelast history) prev
        else createTitle props
    end.
Proof.
  destruct history as [|p0 history'] using rev_ind; [reflexivity|].
  rewrite last_snoc, removelast_last.
  unfold AxisTitle.titleAfter at 1.
  rewrite rerender_snoc.
  by destruct (next_render p0 props _ _ (rerender_settled history' p0)) as [-> _].
Qed.

End AxisTitleRenders.

Section AxisTitleCases.

Import AxisTitle.

Context {Format : Type}.
Variable formatLabel : string -> option Format -> bool -> string.
Variable AXIS_TITLE_SEPARATOR : string.

Abbreviation createTitle' := (AxisTitle.createTitle formatLabel AXIS_TITLE_SEPARATOR).
Abbreviation titleAfter' := (AxisTitle.titleAfter formatLabel AXIS_TITLE_SEPARATOR).
Abbreviation joinedLabels' := (AxisTitle.joinedLabels formatLabel AXIS_TITLE_SEPARATOR).
Abbreviation statedTitle' := (statedTitle formatLabel AXIS_TITLE_SEPARATOR).

Implicit Types (props prev : UseXAxisTitleProps Format).

(** A computation of the title yields the stated title. *)
Lemma createTitle_stated props : createTitle' props = statedTitle' props.
Proof.
  unfold AxisTitle.createTitle, statedTitle, blank, joinedLabels, orElse.
  destruct (isSupportedChartForAxisTitles props); [|reflexivity].
  destruct (xAxisAxisTitle props) as [| |s]; cbn [negb orb];
    try (destruct (truthy (xAxisShowAxisTitle props)); reflexivity).
  case_bool_decide as Hempty; cbn [orb]; [reflexivity|].
  destruct (truthy (xAxisShowAxisTitle props)); cbn [negb]; [|reflexivity].
  destruct (String.eqb_spec s ""); [congruence | reflexivity].
Qed.

(** The guard and a custom title depend on memo inputs only. *)
Lemma sameInputs_blank prev props :
  sameInputs prev props = true ->
  blank prev = blank props /\ xAxisAxisTitle prev = xAxisAxisTitle props.
Proof.
  intros Hsame. apply sameInputs_true in Hsame as (Ht & Hs & Hsh & _).
  unfold blank.
  split; [by rewrite Ht, Hs, Hsh | exact Ht].
Qed.

(** Whatever the history, a blank title stays blank and a custom title
    is shown as it is. *)
Lemma titleAfter_keyed (history : list (UseXAxisTitleProps Format)) props :
  (blank props = true -> titleAfter' history props = ""%string) /\
  (blank props = false ->
   forall s, xAxisAxisTitle props = Defined s -> titleAfter' history props = s).
Proof.
  revert props. induction history as [|prev history IH] using rev_ind; intros props.
  - rewrite titleAfter_unfold. cbn [last]. rewrite createTitle_stated.
    unfold statedTitle. split.
    + by intros ->.
    + intros -> s ->. reflexivity.
  - rewrite titleAfter_unfold, last_snoc, removelast_last.
    destruct (sameInputs prev props) eqn:Hsame.
    + apply sameInputs_blank in Hsame as [Hb Ht].
      rewrite <- Hb, <- Ht. apply IH.
    + rewrite createTitle_stated. unfold statedTitle. split.
      * by intros ->.
      * intros -> s ->. reflexivity.
Qed.

(** C10, as the code has it.  After any history of renders the hook
    returns the empty string under the guard and the custom title when
    there is one; otherwise the formatted, joined labels of
    [selectedAxis.x], taken at the first render and at every render where
    the custom title, the two flags, the [xAxis] array or the
    [columnLabelFormats] object differ from the previous render, and the
    title of the previous render again where none of them differs. *)
Theorem useXAxisTitle_memoised (history : list (UseXAxisTitleProps Format)) props :
  titleAfter' history props
  = if blank props then ""%string
    else match xAxisAxisTitle props with
         | Defined s => s
         | Undefined | Null =>
             match last history with
             | None => joinedLabels' props
             | Some prev =>
                 if sameInputs prev props
                 then titleAfter' (removelast history) prev
                 else joinedLabels' props
             end
         end.
Proof.
  destruct (titleAfter_keyed history props) as [Hblank Htitled].
  destruct (blank props) eqn:Hb; [by apply Hblank|].
  destruct (xAxisAxisTitle props) as [| |s] eqn:Ht; [| |by apply Htitled].
  - rewrite titleAfter_unfold.
    destruct (last history) as [prev|];
      [destruct (sameInputs prev props); [reflexivity|]|];
      rewrite createTitle_stated; unfold statedTitle; by rewrite Hb, Ht.
  - rewrite titleAfter_unfold.
    destruct (last history) as [prev|];
      [destruct (sameInputs prev props); [reflexivity|]|];
      rewrite createTitle_stated; unfold statedTitle; by rewrite Hb, Ht.
Qed.

(** On the first render the stated title is returned. *)
Lemma first_render_stated props : titleAfter' [] props = statedTitle' props.
Proof. rewrite titleAfter_unfold. apply createTitle_stated. Qed.

End AxisTitleCases.

(** The second render of the demo chart still shows the label of the
    column selected at the first one, not the labels of the columns
    selected now. *)
Lemma useXAxisTitle_stale_title :
  AxisTitle.blank DemoAxis.secondProps = false /\
  AxisTitle.xAxisAxisTitle DemoAxis.secondProps = AxisTitle.Undefined /\
  AxisTitle.titleAfter DemoAxis.formatLabel DemoAxis.separator
    [DemoAxis.firstProps] DemoAxis.secondProps = "month"%string /\
  statedTitle DemoAxis.formatLabel DemoAxis.separator DemoAxis.secondProps
  = "region | year"%string /\
  AxisTitle.titleAfter DemoAxis.formatLabel DemoAxis.separator
    [DemoAxis.firstProps] DemoAxis.secondProps
  <> statedTitle DemoAxis.formatLabel DemoAxis.separator DemoAxis.secondProps.
Proof. vm_compute. repeat split. discriminate. Qed.

(** ** Further properties *)

(** *** Pie tooltip: when the helper throws, and NaN percentages *)

Section PieTooltipEdges.

Import PieTooltip.

Context {ColumnLabelFormats : Type}.
Variable percentageFormatter : float -> string -> ColumnLabelFormats -> string.
Variable formatChartLabelDelimiter : string -> ColumnLabelFormats -> string.
Variable formatChartValueDelimiter : Js.num -> string -> ColumnLabelFormats -> string.

Abbreviation helper' := (pieTooltipHelper percentageFormatter
                           formatChartLabelDelimiter formatChartValueDelimiter).

(** With the hovered dataset in place the helper returns nothing or
    maps over the hidden datasets. *)
Lemma pieTooltipHelper_hovered
    (datasets : list ChartDataset) (dp : TooltipItem) (rest : list TooltipItem)
    (chart : Chart) (formats : ColumnLabelFormats) (keys : list string)
    (active : ChartDataset) :
  Js.index datasets (datasetIndex dp) = Some active ->
  helper' datasets (dp :: rest) chart formats keys
  = if existsb (fun dataset => String.eqb (label dataset) (label active))
         (List.filter hidden datasets)
    then Js.mapM
           (tooltipItemOf percentageFormatter formatChartLabelDelimiter
              formatChartValueDelimiter datasets (Some active) (dataIndex dp)
              chart formats keys)
           (List.filter hidden datasets)
    else Js.Return [].
Proof.
  intros Hactive. unfold pieTooltipHelper. simpl. rewrite Hactive.
  rewrite (someM_pure _ (fun dataset => String.eqb (label dataset) (label active)))
    by reflexivity.
  simpl. by destruct (existsb _ _).
Qed.

(** A [map] whose callback throws on some element throws. *)
Lemma mapM_throws {A B : Type} (cb : A -> Js.completion B) (a : list A) (e : Js.error) :
  (exists x, x ∈ a /\ cb x = Js.Throw e) ->
  (forall x, x ∈ a -> cb x = Js.Throw e \/ exists y, cb x = Js.Return y) ->
  Js.mapM cb a = Js.Throw e.
Proof.
  induction a as [|x0 rest IH]; intros (x & Hx & Hthrow) Hall.
  - by apply elem_of_nil in Hx.
  - simpl. destruct (Hall x0 (list_elem_of_here _ _)) as [-> | [y Hy]]; [done|].
    rewrite Hy. simpl. rewrite IH; [done | |].
    + apply elem_of_cons in Hx as [-> | Hx]; [congruence|]. by exists x.
    + intros z Hz. apply Hall. by apply list_elem_of_further.
Qed.

(** Without colours on the hovered dataset, the item of a hidden
    dataset with its label cannot be built; the items of the others
    can. *)
Lemma tooltipItemOf_bare
    (datasets : list ChartDataset) (active : ChartDataset) (di : Z)
    (chart : Chart) (formats : ColumnLabelFormats) (keys : list string)
    (h : ChartDataset) :
  backgroundColor active = None ->
  let built := tooltipItemOf percentageFormatter formatChartLabelDelimiter
                 formatChartValueDelimiter datasets (Some active) di chart
                 formats keys h in
  if String.eqb (label h) (label active)
  then built = Js.Throw Js.TypeError
  else exists item, built = Js.Return item.
Proof.
  intros Hcolors built. subst built. unfold tooltipItemOf. simpl. rewrite Hcolors.
  destruct (String.eqb (label h) (label active)); simpl; [done | by eexists].
Qed.

Lemma filter_hidden_nonempty (datasets : list ChartDataset) :
  List.filter hidden datasets <> [] <-> exists h, h ∈ datasets /\ hidden h = true.
Proof.
  split.
  - destruct (List.filter hidden datasets) as [|h l] eqn:Hf; [done|].
    intros _. exists h. apply elem_of_List_filter. rewrite Hf. apply list_elem_of_here.
  - intros (h & Hh) Hnil. apply elem_of_List_filter in Hh.
    rewrite Hnil in Hh. by apply elem_of_nil in Hh.
Qed.

(** The helper settles one way or the other once the hovered dataset is
    in place: it throws when that dataset has no colours while a hidden
    dataset carries its label, and returns otherwise. *)
Lemma pieTooltipHelper_hovered_throws
    (datasets : list ChartDataset) (dp : TooltipItem) (rest : list TooltipItem)
    (chart : Chart) (formats : ColumnLabelFormats) (keys : list string)
    (active : ChartDataset) :
  Js.index datasets (datasetIndex dp) = Some active ->
  (exists e, helper' datasets (dp :: rest) chart formats keys = Js.Throw e)
  <-> backgroundColor active = None /\
      exists h, h ∈ datasets /\ hidden h = true /\ label h = label active.
Proof.
  intros Hactive. rewrite (pieTooltipHelper_hovered _ _ _ _ _ _ _ Hactive).
  rewrite <- dataPointIsInTooltip_spec.
  destruct (existsb _ (List.filter hidden datasets)) eqn:Hsome.
  - destruct (backgroundColor active) as [colors|] eqn:Hcolors.
    + destruct (mapM_Forall2
                  (tooltipItemOf percentageFormatter formatChartLabelDelimiter
                     formatChartValueDelimiter datasets (Some active) (dataIndex dp)
                     chart formats keys)
                  (fun _ _ => True) (List.filter hidden datasets)) as (items & -> & _).
      * intros h _. eexists. split; [by apply tooltipItemOf_active | done].
      * split; [intros [e He]; discriminate | intros [? _]; discriminate].
    + split; [done | intros _]. exists Js.TypeError. apply mapM_throws.
      * apply existsb_exists in Hsome as (h & Hh & Heq). exists h.
        split; [by apply list_elem_of_In|].
        pose proof (tooltipItemOf_bare datasets active (dataIndex dp) chart formats
                      keys h Hcolors) as Hbuilt.
        cbv zeta in Hbuilt. by rewrite Heq in Hbuilt.
      * intros h _.
        pose proof (tooltipItemOf_bare datasets active (dataIndex dp) chart formats
                      keys h Hcolors) as Hbuilt.
        cbv zeta in Hbuilt.
        destruct (String.eqb (label h) (label active)); [by left | by right].
  - split; [intros [e He]; discriminate | intros [_ ?]; discriminate].
Qed.

(** X1.  The helper throws exactly when [dataPoints] is empty, or when
    the dataset index of the first data point is not an index of
    [datasets] while some dataset is hidden, or when the hovered dataset
    has no [backgroundColor] while a hidden dataset carries its label; in
    every other case it returns a list. *)
Theorem pieTooltipHelper_throws_iff
    (datasets : list ChartDataset) (dataPoints : list TooltipItem)
    (chart : Chart) (formats : ColumnLabelFormats) (keys : list string) :
  (exists e, helper' datasets dataPoints chart formats keys = Js.Throw e)
  <-> dataPoints = []
      \/ (exists dp rest,
            dataPoints = dp :: rest /\
            Js.index datasets (datasetIndex dp) = None /\
            exists h, h ∈ datasets /\ hidden h = true)
      \/ (exists dp rest active,
            dataPoints = dp :: rest /\
            Js.index datasets (datasetIndex dp) = Some active /\
            backgroundColor active = None /\
            exists h, h ∈ datasets /\ hidden h = true /\ label h = label active).
Proof.
  destruct dataPoints as [|dp rest].
  - split; [by left | intros _; by exists Js.TypeError].
  - destruct (Js.index datasets (datasetIndex dp)) as [active|] eqn:Hactive.
    + rewrite (pieTooltipHelper_hovered_throws _ _ _ _ _ _ _ Hactive). split.
      * intros [Hcolors Hex]. right. right. by exists dp, rest, active.
      * intros [? | [(dp' & rest' & [= <- <-] & Hnone & _)
                    | (dp' & rest' & active' & [= <- <-] & Hsome & Hcolors & Hex)]];
          [done | congruence |].
        assert (active' = active) as -> by congruence. done.
    + destruct (List.filter hidden datasets) as [|h l] eqn:Hf.
      * split.
        -- intros [e He].
           rewrite (pieTooltipHelper_no_hidden _ _ _ datasets dp rest chart formats keys Hf)
             in He. discriminate.
        -- intros [? | [(dp' & rest' & _ & _ & Hex)
                       | (dp' & rest' & active' & [= <- <-] & Hsome & _)]];
             [done | | congruence].
           apply filter_hidden_nonempty in Hex. done.
      * split.
        -- intros _. right. left. exists dp, rest. repeat split; [done|].
           apply filter_hidden_nonempty. by rewrite Hf.
        -- intros _. exists Js.TypeError.
           apply pieTooltipHelper_dangling; [done | by rewrite Hf].
Qed.

End PieTooltipEdges.

Section PieNaN.

Import PieTooltip.

(** NaN in, NaN out, for the two operations of the percentage. *)
Lemma is_nan_of_SF (x : float) : Prim2SF x = S754_nan -> PrimFloat.is_nan x = true.
Proof.
  intros Hx. unfold PrimFloat.is_nan. by rewrite FloatAxioms.eqb_spec, Hx.
Qed.

Lemma div_nan (x y : float) :
  Prim2SF x = S754_nan \/ Prim2SF y = S754_nan -> Prim2SF (x / y) = S754_nan.
Proof.
  intros H. rewrite FloatAxioms.div_spec. unfold SF64div, SFdiv.
  destruct H as [-> | ->]; [done|]. by destruct (Prim2SF x).
Qed.

Lemma mul_nan_l (x y : float) : Prim2SF x = S754_nan -> Prim2SF (x * y) = S754_nan.
Proof. intros Hx. rewrite FloatAxioms.mul_spec. unfold SF64mul, SFmul. by rewrite Hx. Qed.

Context {ColumnLabelFormats : Type}.
Variable percentageFormatter : float -> string -> ColumnLabelFormats -> string.

(** X2.  When the data index is outside the data array, or the dataset
    index is outside the series totals (as for [-1]), the formatter
    receives NaN whatever the other operand is. *)
Theorem getPiePercentage_nan
    (i j : Z) (d : list float) (label : string)
    (formats : ColumnLabelFormats) (chart : Chart) :
  Js.index d i = None \/ Js.index (seriesTotals (totalizer chart)) j = None ->
  exists p : float,
    getPiePercentage percentageFormatter i j d label formats chart
    = percentageFormatter p label formats /\
    PrimFloat.is_nan p = true.
Proof.
  intros Hundef. unfold getPiePercentage. eexists. split; [reflexivity|].
  apply is_nan_of_SF, mul_nan_l, div_nan.
  destruct Hundef as [-> | ->]; [by left | by right].
Qed.

End PieNaN.

(** The demo chart read past the end of the data. *)
Lemma getPiePercentage_nan_witness :
  exists p : float,
    PieTooltip.getPiePercentage Demo.percentageFormatter 7 1
      [1%float; 3%float] "sales" tt Demo.chart
    = Demo.percentageFormatter p "sales" tt /\
    PrimFloat.is_nan p = true.
Proof.
  apply (getPiePercentage_nan Demo.percentageFormatter 7 1
           [1%float; 3%float] "sales" tt Demo.chart).
  left. reflexivity.
Defined.

(** *** Axis title: when the memoised title is the stated one *)

Section AxisTitleCoherence.

Import AxisTitle.

Context {Format : Type}.

Implicit Types (props prev : UseXAxisTitleProps Format).

Lemma sameInputs_refl props : sameInputs props props = true.
Proof. by apply sameInputs_true. Qed.

Lemma sameInputs_trans prev props next :
  sameInputs prev props = true -> sameInputs props next = true ->
  sameInputs prev next = true.
Proof.
  intros H1 H2. apply sameInputs_true in H1 as (? & ? & ? & ? & ?).
  apply sameInputs_true in H2 as (? & ? & ? & ? & ?).
  apply sameInputs_true. repeat split; congruence.
Qed.

Variable formatLabel : string -> option Format -> bool -> string.
Variable AXIS_TITLE_SEPARATOR : string.

Abbreviation titleAfter'' := (AxisTitle.titleAfter formatLabel AXIS_TITLE_SEPARATOR).
Abbreviation joinedLabels'' := (AxisTitle.joinedLabels formatLabel AXIS_TITLE_SEPARATOR).
Abbreviation statedTitle'' := (statedTitle formatLabel AXIS_TITLE_SEPARATOR).

Lemma titleAfter_snoc (history : list (UseXAxisTitleProps Format)) prev props :
  titleAfter'' (history ++ [prev]) props
  = if sameInputs prev props then titleAfter'' history prev
    else statedTitle'' props.
Proof.
  rewrite titleAfter_unfold, last_snoc, removelast_last.
  destruct (sameInputs prev props); [reflexivity | apply createTitle_stated].
Qed.

Lemma statedTitle_sameInputs prev props :
  sameInputs prev props = true ->
  joinedLabels'' prev = joinedLabels'' props ->
  statedTitle'' prev = statedTitle'' props.
Proof.
  intros Hsame Hlabels. apply sameInputs_blank in Hsame as [Hb Ht].
  unfold statedTitle. by rewrite Hb, Ht, Hlabels.
Qed.

(** X3.  When every earlier render with the same memo inputs as the
    current one (custom title, the two flags, the [xAxis] array and the
    [columnLabelFormats] object) also had the same formatted labels, the
    hook returns the title computed from the current props. *)
Theorem useXAxisTitle_current
    (history : list (UseXAxisTitleProps Format)) props :
  (forall q, q ∈ history -> sameInputs q props = true ->
             joinedLabels'' q = joinedLabels'' props) ->
  titleAfter'' history props = statedTitle'' props.
Proof.
  revert props. induction history as [|prev history IH] using rev_ind;
    intros props Hsame.
  - by rewrite titleAfter_unfold, createTitle_stated.
  - rewrite titleAfter_snoc.
    destruct (sameInputs prev props) eqn:Hprev; [|reflexivity].
    rewrite IH.
    + apply statedTitle_sameInputs; [done|].
      apply Hsame; [|done]. apply elem_of_app. right. apply list_elem_of_here.
    + intros q Hq Hqprev.
      rewrite (Hsame q), (Hsame prev); try done.
      * apply elem_of_app. right. apply list_elem_of_here.
      * apply elem_of_app. by left.
      * by apply (sameInputs_trans q prev props).
Qed.

(** X4.  Rendering again with the very same props returns the same
    title and keeps both memo cells as they are. *)
Theorem useXAxisTitle_rerender_stable
    (history : list (UseXAxisTitleProps Format)) props :
  let state := AxisTitle.rerender formatLabel AXIS_TITLE_SEPARATOR mount
                 (history ++ [props]) in
  let again := AxisTitle.useXAxisTitle formatLabel AXIS_TITLE_SEPARATOR props state in
  again.1 = titleAfter'' history props /\
  formatsMemo again.2 = formatsMemo state /\
  titleMemo again.2 = titleMemo state.
Proof.
  intros state again.
  pose proof (rerender_settled formatLabel AXIS_TITLE_SEPARATOR history props)
    as (arr & Hformats & Hfresh & Htitle).
  assert (Hstate : state
                   = (AxisTitle.useXAxisTitle formatLabel AXIS_TITLE_SEPARATOR props
                        (AxisTitle.rerender formatLabel AXIS_TITLE_SEPARATOR mount
                           history)).2)
    by apply rerender_snoc.
  rewrite <- Hstate in Hformats, Htitle.
  subst again. unfold AxisTitle.useXAxisTitle. rewrite Hformats, Htitle.
  unfold useMemo. cbn [deps memoized fst snd formatsMemo titleMemo].
  destruct (decide (formatsDeps props = formatsDeps props)) as [_|]; [|done].
  cbn [memoized]. by rewrite decide_True.
Qed.

End AxisTitleCoherence.

(** The demo chart rendered twice with the first props. *)
Lemma useXAxisTitle_current_witness :
  AxisTitle.titleAfter DemoAxis.formatLabel DemoAxis.separator
    [DemoAxis.firstProps] DemoAxis.firstProps
  = statedTitle DemoAxis.formatLabel DemoAxis.separator DemoAxis.firstProps.
Proof.
  apply (useXAxisTitle_current DemoAxis.formatLabel DemoAxis.separator
           [DemoAxis.firstProps] DemoAxis.firstProps).
  intros q Hq _. apply list_elem_of_singleton in Hq. by subst q.
Defined.

(** *** Permission groups: the member lists *)

Section PermissionGroupMembers.

Context {Payload HttpError : Type}.
Variable mainApi : list Event -> Http.Request -> HttpError + Http.Response Payload.

(** X5.  The three member-list reads each hand one body-less GET to the
    client, to [/permission_groups/{id}/users], [.../datasets] and
    [.../dataset_groups], and settle as the client does, with the
    response's data. *)
Theorem getPermissionGroup_members_get (id : string) :
  performs mainApi (getPermissionGroupUsers mainApi id)
    {| Http.method := Http.GET;
       Http.url := "/permission_groups/" +:+ id +:+ "/users";
       Http.body := None |} /\
  performs mainApi (getPermissionGroupDatasets mainApi id)
    {| Http.method := Http.GET;
       Http.url := "/permission_groups/" +:+ id +:+ "/datasets";
       Http.body := None |} /\
  performs mainApi (getPermissionGroupDatasetGroups mainApi id)
    {| Http.method := Http.GET;
       Http.url := "/permission_groups/" +:+ id +:+ "/dataset_groups";
       Http.body := None |}.
Proof.
  split; [|split].
  - apply (invoke_performs mainApi (GetPermissionGroupUsers id)).
  - apply (invoke_performs mainApi (GetPermissionGroupDatasets id)).
  - apply (invoke_performs mainApi (GetPermissionGroupDatasetGroups id)).
Qed.

End PermissionGroupMembers.

(** *** Dataset groups: the optimistic update *)

Lemma sameId_withAssigned (row : Query.Obj) (value : bool) (d : Http.Assignment.t) :
  sameId (withAssigned row value) d = sameId row d.
Proof.
  unfold sameId, withAssigned. by rewrite lookup_insert_ne.
Qed.

Lemma find_ext {A : Type} (p q : A -> bool) (a : list A) :
  (forall x, p x = q x) -> Js.find p a = Js.find q a.
Proof.
  intros Hpq. induction a as [|x rest IH]; [done|].
  simpl. rewrite Hpq. by rewrite IH.
Qed.

(** An updated row keeps its id, and updating it again changes nothing. *)
Lemma updatedRow_id (L : list Http.Assignment.t) (row : Query.Obj) :
  updatedRow L row !! "id"%string = row !! "id"%string.
Proof.
  unfold updatedRow. destruct (Js.find (sameId row) L); [|done].
  unfold withAssigned. by rewrite lookup_insert_ne.
Qed.

Lemma updatedRow_idemp (L : list Http.Assignment.t) (row : Query.Obj) :
  updatedRow L (updatedRow L row) = updatedRow L row.
Proof.
  unfold updatedRow at 2. destruct (Js.find (sameId row) L) as [d|] eqn:Hfind.
  - unfold updatedRow.
    rewrite (find_ext _ (sameId row)) by apply sameId_withAssigned.
    rewrite Hfind. unfold withAssigned. apply insert_insert_eq.
  - unfold updatedRow. by rewrite Hfind.
Qed.

Section OptimisticUpdate.

Context {Payload HttpError : Type}.
Variable updateDatasetGroupUsers :
  string -> list Http.Assignment.t -> Eff Payload HttpError Payload.
Variable updateDatasetGroupDatasets :
  string -> list Http.Assignment.t -> Eff Payload HttpError Payload.
Variable updateDatasetGroupPermissionGroups :
  string -> list Http.Assignment.t -> Eff Payload HttpError Payload.

Abbreviation mutation' :=
  (membersMutation updateDatasetGroupUsers updateDatasetGroupDatasets
     updateDatasetGroupPermissionGroups).
Abbreviation request' :=
  (membersRequest updateDatasetGroupUsers updateDatasetGroupDatasets
     updateDatasetGroupPermissionGroups).

(** With rows in the cache the mutation writes the updated rows and
    hands over to the request function. *)
Lemma mutation_writes
    (m : Members) (datasetGroupId : string) (L : list Http.Assignment.t)
    (w : World Payload) (oldData : list Query.Obj) :
  cache w !! membersKey m datasetGroupId ≫= Query.data = Some (Query.Rows oldData) ->
  mutation' m datasetGroupId L w
  = request' m datasetGroupId L
      (afterCacheSet (membersKey m datasetGroupId) (map (updatedRow L) oldData) w).
Proof.
  intros Hrows.
  destruct m; cbn [membersMutation membersRequest membersKey] in *;
    unfold useUpdateDatasetGroupUsers, useUpdateDatasetGroupDatasets,
      useUpdateDatasetGroupPermissionGroups, mbind at 1, Eff_bind, setQueryData;
    rewrite Hrows; reflexivity.
Qed.

(** X6.  The optimistic write is idempotent: in any world that caches
    the rows a first run of the mutation has written, a second run with
    the same update list writes the very same rows. *)
Theorem optimistic_update_idempotent
    (m : Members) (datasetGroupId : string) (L : list Http.Assignment.t)
    (w : World Payload) (oldData : list Query.Obj) :
  cache w !! membersKey m datasetGroupId ≫= Query.data = Some (Query.Rows oldData) ->
  exists newData : list Query.Obj,
    mutation' m datasetGroupId L w
    = request' m datasetGroupId L
        (afterCacheSet (membersKey m datasetGroupId) newData w) /\
    forall w2 : World Payload,
      cache w2 !! membersKey m datasetGroupId ≫= Query.data
      = Some (Query.Rows newData) ->
      mutation' m datasetGroupId L w2
      = request' m datasetGroupId L
          (afterCacheSet (membersKey m datasetGroupId) newData w2).
Proof.
  intros Hrows. exists (map (updatedRow L) oldData). split.
  - by apply mutation_writes.
  - intros w2 Hrows2. rewrite (mutation_writes _ _ _ _ _ Hrows2).
    do 2 f_equal. rewrite <- list_fmap_compose. apply list_fmap_ext.
    intros _ row _. apply updatedRow_idemp.
Qed.

(** X7.  When the key of the hook holds no array of rows (no query, a
    query without data, or data of another shape) the mutation throws a
    [TypeError]; the cache is untouched and the request function is never
    run. *)
Theorem optimistic_update_needs_rows
    (m : Members) (datasetGroupId : string) (L : list Http.Assignment.t)
    (w : World Payload) :
  (forall rows, cache w !! membersKey m datasetGroupId ≫= Query.data
                <> Some (Query.Rows rows)) ->
  mutation' m datasetGroupId L w = (inl (Thrown Js.TypeError), w).
Proof.
  intros Hrows.
  destruct m; cbn [membersMutation membersKey] in *;
    unfold useUpdateDatasetGroupUsers, useUpdateDatasetGroupDatasets,
      useUpdateDatasetGroupPermissionGroups, mbind at 1, Eff_bind, setQueryData;
    (destruct (_ ≫= Query.data) as [[rows|other]|] eqn:Hdata;
       [by destruct (Hrows rows) | reflexivity | reflexivity]).
Qed.

(** X8.  The optimistic write never changes the id of a row: the rows it
    writes carry the ids of the cached rows, in the same order. *)
Theorem optimistic_update_keeps_ids
    (m : Members) (datasetGroupId : string) (L : list Http.Assignment.t)
    (w : World Payload) (oldData : list Query.Obj) :
  cache w !! membersKey m datasetGroupId ≫= Query.data = Some (Query.Rows oldData) ->
  exists newData : list Query.Obj,
    mutation' m datasetGroupId L w
    = request' m datasetGroupId L
        (afterCacheSet (membersKey m datasetGroupId) newData w) /\
    map (fun row : Query.Obj => row !! "id"%string) newData
    = map (fun row : Query.Obj => row !! "id"%string) oldData.
Proof.
  intros Hrows. exists (map (updatedRow L) oldData). split.
  - by apply mutation_writes.
  - rewrite map_map. apply map_ext. intros row. apply updatedRow_id.
Qed.

Section WithQueries.

Variable getDatasetGroupUsers : string -> Eff Payload HttpError Payload.
Variable getDatasetGroupDatasets : string -> Eff Payload HttpError Payload.
Variable getDatasetGroupPermissionGroups : string -> Eff Payload HttpError Payload.

(** X9.  The optimistic write of a member hook lands on the key of the
    query hook that reads the same member list, as fresh data, and on no
    other key. *)
Theorem optimistic_update_feeds_query
    (m : Members) (datasetGroupId : string) (L : list Http.Assignment.t)
    (w : World Payload) (oldData : list Query.Obj) :
  cache w !! membersKey m datasetGroupId ≫= Query.data = Some (Query.Rows oldData) ->
  exists (newData : list Query.Obj) (w1 : World Payload),
    mutation' m datasetGroupId L w = request' m datasetGroupId L w1 /\
    cache w1 !! queryKey (membersQuery getDatasetGroupUsers getDatasetGroupDatasets
                            getDatasetGroupPermissionGroups m datasetGroupId)
    = Some {| Query.data := Some (Query.Rows newData);
              Query.isInvalidated := false |} /\
    forall key : list string,
      key <> queryKey (membersQuery getDatasetGroupUsers getDatasetGroupDatasets
                         getDatasetGroupPermissionGroups m datasetGroupId) ->
      cache w1 !! key = cache w !! key.
Proof.
  intros Hrows. eexists _, _. split; [by apply mutation_writes|].
  unfold afterCacheSet. cbn [cache]. split.
  - destruct m; apply lookup_insert_eq.
  - intros key Hkey. destruct m; by apply lookup_insert_ne.
Qed.

End WithQueries.

End OptimisticUpdate.

(** Assigning Ann twice, in a world without the users of group g2, and
    with the query hook of the users of g1. *)
Lemma optimistic_update_idempotent_witness :
  exists newData : list Query.Obj,
    useUpdateDatasetGroupUsers (DemoHooks.put "/users") "g1" DemoHooks.assignAnn
      DemoHooks.world
    = DemoHooks.put "/users" "g1" DemoHooks.assignAnn
        (afterCacheSet ["dataset_groups"; "g1"; "users"]%string newData DemoHooks.world) /\
    forall w2 : World string,
      cache w2 !! ["dataset_groups"; "g1"; "users"]%string ≫= Query.data
      = Some (Query.Rows newData) ->
      useUpdateDatasetGroupUsers (DemoHooks.put "/users") "g1" DemoHooks.assignAnn w2
      = DemoHooks.put "/users" "g1" DemoHooks.assignAnn
          (afterCacheSet ["dataset_groups"; "g1"; "users"]%string newData w2).
Proof.
  apply (optimistic_update_idempotent (DemoHooks.put "/users") (DemoHooks.put "/datasets")
           (DemoHooks.put "/permission_groups") Users "g1" DemoHooks.assignAnn
           DemoHooks.world [DemoHooks.ann; DemoHooks.bob]).
  vm_compute. reflexivity.
Defined.

Lemma optimistic_update_needs_rows_witness :
  useUpdateDatasetGroupUsers (DemoHooks.put "/users") "g2" DemoHooks.assignAnn
    DemoHooks.world
  = (inl (Thrown Js.TypeError), DemoHooks.world).
Proof.
  apply (optimistic_update_needs_rows (DemoHooks.put "/users") (DemoHooks.put "/datasets")
           (DemoHooks.put "/permission_groups") Users "g2" DemoHooks.assignAnn
           DemoHooks.world).
  intros rows. vm_compute. discriminate.
Defined.

Lemma optimistic_update_keeps_ids_witness :
  exists newData : list Query.Obj,
    useUpdateDatasetGroupUsers (DemoHooks.put "/users") "g1" DemoHooks.assignAnn
      DemoHooks.world
    = DemoHooks.put "/users" "g1" DemoHooks.assignAnn
        (afterCacheSet ["dataset_groups"; "g1"; "users"]%string newData DemoHooks.world) /\
    map (fun row : Query.Obj => row !! "id"%string) newData
    = map (fun row : Query.Obj => row !! "id"%string) [DemoHooks.ann; DemoHooks.bob].
Proof.
  apply (optimistic_update_keeps_ids (DemoHooks.put "/users") (DemoHooks.put "/datasets")
           (DemoHooks.put "/permission_groups") Users "g1" DemoHooks.assignAnn
           DemoHooks.world [DemoHooks.ann; DemoHooks.bob]).
  vm_compute. reflexivity.
Defined.

Lemma optimistic_update_feeds_query_witness :
  exists (newData : list Query.Obj) (w1 : World string),
    useUpdateDatasetGroupUsers (DemoHooks.put "/users") "g1" DemoHooks.assignAnn
      DemoHooks.world
    = DemoHooks.put "/users" "g1" DemoHooks.assignAnn w1 /\
    cache w1 !! queryKey (useGetDatasetGroupUsers (DemoGroups.getMembers "/users") "g1")
    = Some {| Query.data := Some (Query.Rows newData);
              Query.isInvalidated := false |} /\
    forall key : list string,
      key <> queryKey (useGetDatasetGroupUsers (DemoGroups.getMembers "/users") "g1") ->
      cache w1 !! key = cache DemoHooks.world !! key.
Proof.
  apply (optimistic_update_feeds_query (DemoHooks.put "/users") (DemoHooks.put "/datasets")
           (DemoHooks.put "/permission_groups")
           (DemoGroups.getMembers "/users") (DemoGroups.getMembers "/datasets")
           (DemoGroups.getMembers "/permission_groups")
           Users "g1" DemoHooks.assignAnn DemoHooks.world [DemoHooks.ann; DemoHooks.bob]).
  vm_compute. reflexivity.
Defined.

(** *** Dataset groups: invalidation and creation *)

Section InvalidationReach.

Context {Payload HttpError DatasetGroupUpdate : Type}.
Variable deleteDatasetGroup : string -> Eff Payload HttpError Payload.
Variable updateDatasetGroup : DatasetGroupUpdate -> Eff Payload HttpError Payload.
Variable listDatasetGroups : Eff Payload HttpError Payload.
Variable getDatasetGroup : string -> Eff Payload HttpError Payload.
Variable getDatasetGroupUsers : string -> Eff Payload HttpError Payload.
Variable getDatasetGroupDatasets : string -> Eff Payload HttpError Payload.
Variable getDatasetGroupPermissionGroups : string -> Eff Payload HttpError Payload.

Abbreviation registered' :=
  (registered listDatasetGroups getDatasetGroup getDatasetGroupUsers
     getDatasetGroupDatasets getDatasetGroupPermissionGroups).

(** Every key the query hooks register starts with ['dataset_groups']. *)
Lemma registered_prefix (key : list string) :
  registered' key -> ["dataset_groups"%string] `prefix_of` key.
Proof.
  intros [|id|m id]; [| |destruct m]; cbn; by eexists.
Qed.

Lemma thenInvalidate_reach
    (settled : (Failure HttpError + Payload) * World Payload)
    (res : Payload) (w1 : World Payload) :
  settled = (inr res, w1) ->
  (thenInvalidate ["dataset_groups"%string] settled).1 = inr res /\
  (forall (key : list string) (q : Query.State Payload),
     registered' key -> cache w1 !! key = Some q ->
     cache (thenInvalidate ["dataset_groups"%string] settled).2 !! key
     = Some {| Query.data := Query.data q; Query.isInvalidated := true |}) /\
  (forall key : list string,
     ~ ["dataset_groups"%string] `prefix_of` key ->
     cache (thenInvalidate ["dataset_groups"%string] settled).2 !! key
     = cache w1 !! key).
Proof.
  intros ->. cbn [thenInvalidate fst snd]. split; [done|]. split.
  - intros key q Hkey Hq. rewrite afterInvalidation_lookup, Hq. cbn.
    by rewrite bool_decide_eq_true_2 by by apply registered_prefix.
  - intros key Hkey. rewrite afterInvalidation_lookup.
    rewrite bool_decide_eq_false_2 by done. by destruct (cache w1 !! key).
Qed.

(** X10.  When the request of [useDeleteDatasetGroup] or
    [useUpdateDatasetGroup] fulfils, every cached query of the hooks of
    the file (the list, a group, and the three member lists of any group)
    is marked invalidated with its data kept, and no query whose key does
    not start with ['dataset_groups'] is touched. *)
Theorem mutations_invalidate_every_query :
  (forall (id : string) (w w1 : World Payload) (res : Payload),
     deleteDatasetGroup id w = (inr res, w1) ->
     let after := useDeleteDatasetGroup deleteDatasetGroup id w in
     after.1 = inr res /\
     (forall (key : list string) (q : Query.State Payload),
        registered' key -> cache w1 !! key = Some q ->
        cache after.2 !! key
        = Some {| Query.data := Query.data q; Query.isInvalidated := true |}) /\
     (forall key : list string,
        ~ ["dataset_groups"%string] `prefix_of` key ->
        cache after.2 !! key = cache w1 !! key)) /\
  (forall (data : DatasetGroupUpdate) (w w1 : World Payload) (res : Payload),
     updateDatasetGroup data w = (inr res, w1) ->
     let after := useUpdateDatasetGroup updateDatasetGroup data w in
     after.1 = inr res /\
     (forall (key : list string) (q : Query.State Payload),
        registered' key -> cache w1 !! key = Some q ->
        cache after.2 !! key
        = Some {| Query.data := Query.data q; Query.isInvalidated := true |}) /\
     (forall key : list string,
        ~ ["dataset_groups"%string] `prefix_of` key ->
        cache after.2 !! key = cache w1 !! key)).
Proof.
  split.
  - intros id w w1 res Hreq after. subst after.
    rewrite useDeleteDatasetGroup_thenInvalidate. by apply thenInvalidate_reach.
  - intros data w w1 res Hreq after. subst after.
    rewrite useUpdateDatasetGroup_thenInvalidate. by apply thenInvalidate_reach.
Qed.

End InvalidationReach.

Section CreateDatasetGroup.

Context {Payload HttpError DatasetGroupData : Type}.
Variable mainApi : list Event -> Http.Request -> HttpError + Http.Response Payload.
Variable createDatasetGroup : DatasetGroupData -> Eff Payload HttpError Payload.
Variable updateDatasetDatasetGroups :
  string -> list Http.Assignment.t -> Eff Payload HttpError Payload.
Variable responseId : Payload -> string.
Variable LIST_DATASET_GROUPS_QUERY_KEY : string.
Variable USER_PERMISSIONS_DATASET_GROUPS_QUERY_KEY : string -> list string.

Abbreviation create :=
  (useCreateDatasetGroup createDatasetGroup updateDatasetDatasetGroups responseId
     LIST_DATASET_GROUPS_QUERY_KEY USER_PERMISSIONS_DATASET_GROUPS_QUERY_KEY).

(** X11.  When the creation request rejects, the mutation rejects with
    its error in the world the request left: no assignment is requested
    and nothing is invalidated, whatever ids the hook was given. *)
Theorem useCreateDatasetGroup_create_rejected
    (datasetId userId : option string) (data : DatasetGroupData)
    (w w1 : World Payload) (e : Failure HttpError) :
  createDatasetGroup data w = (inl e, w1) ->
  create datasetId userId data w = (inl e, w1).
Proof.
  intros Hcreate. unfold useCreateDatasetGroup, mbind at 1, Eff_bind.
  by rewrite Hcreate.
Qed.

(** X12.  Without a dataset id and a user id (absent or empty) the
    mutation is the creation request and nothing more. *)
Theorem useCreateDatasetGroup_bare
    (datasetId userId : option string) (data : DatasetGroupData) (w : World Payload) :
  truthyString datasetId = false -> truthyString userId = false ->
  create datasetId userId data w = createDatasetGroup data w.
Proof.
  intros Hd Hu. unfold useCreateDatasetGroup, mbind, Eff_bind.
  destruct (createDatasetGroup data w) as [[e|res] w1]; [done|].
  destruct datasetId as [d|], userId as [u|]; rewrite ?Hd, ?Hu; reflexivity.
Qed.

(** The world after the three calls inside [Promise.all]. *)
Lemma assignment_started
    (dataset_id : string) (userId : option string) (data : DatasetGroupData)
    (w w1 : World Payload) (res : Payload) (request : Http.Request) :
  createDatasetGroup data w = (inr res, w1) ->
  truthyString (Some dataset_id) = true ->
  performs mainApi
    (updateDatasetDatasetGroups dataset_id
       [ {| Http.Assignment.id := responseId res; Http.Assignment.assigned := true |} ])
    request ->
  create (Some dataset_id) userId data w
  = let w3 := afterInvalidation ["dataset_groups"%string]
                (afterInvalidation [LIST_DATASET_GROUPS_QUERY_KEY; dataset_id]
                   (afterRequest request w1)) in
    match mainApi (trace w1) request with
    | inl e => (inl (Rejected e), w3)
    | inr _ =>
        (inr res,
         match userId with
         | Some user_id =>
             if truthyString userId
             then afterInvalidation (USER_PERMISSIONS_DATASET_GROUPS_QUERY_KEY user_id) w3
             else w3
         | None => w3
         end)
    end.
Proof.
  intros Hcreate Htruthy Hreq.
  unfold useCreateDatasetGroup, mbind at 1, Eff_bind. rewrite Hcreate.
  rewrite Htruthy. unfold mbind, Eff_bind, call. rewrite Hreq.
  unfold settle, invalidateQueries.
  destruct (mainApi (trace w1) request) as [e|response]; cbn.
  - reflexivity.
  - destruct userId as [u|]; [destruct (truthyString (Some u))|]; reflexivity.
Qed.

(** X13.  With a dataset id, when the client rejects the assignment of
    the new group to the dataset, the mutation rejects with the client's
    error; the two invalidations listed beside the assignment have been
    made all the same, and the user's permissions are not invalidated. *)
Theorem useCreateDatasetGroup_assignment_rejected
    (dataset_id : string) (userId : option string) (data : DatasetGroupData)
    (w w1 : World Payload) (res : Payload) (request : Http.Request) (e : HttpError) :
  createDatasetGroup data w = (inr res, w1) ->
  truthyString (Some dataset_id) = true ->
  performs mainApi
    (updateDatasetDatasetGroups dataset_id
       [ {| Http.Assignment.id := responseId res; Http.Assignment.assigned := true |} ])
    request ->
  mainApi (trace w1) request = inl e ->
  create (Some dataset_id) userId data w
  = (inl (Rejected e),
     afterInvalidation ["dataset_groups"%string]
       (afterInvalidation [LIST_DATASET_GROUPS_QUERY_KEY; dataset_id]
          (afterRequest request w1))).
Proof.
  intros Hcreate Htruthy Hreq Hfail.
  rewrite (assignment_started _ _ _ _ _ _ _ Hcreate Htruthy Hreq). cbv zeta.
  by rewrite Hfail.
Qed.

(** X14.  With a dataset id and a user id, when creation and assignment
    both succeed, the mutation fulfils with the response of the creation;
    the new group, by the id of that response, has been assigned to the
    dataset, and the dataset's group list, ['dataset_groups'] and the
    user's permissions have been invalidated, in that order. *)
Theorem useCreateDatasetGroup_fulfilled
    (dataset_id user_id : string) (data : DatasetGroupData)
    (w w1 : World Payload) (res : Payload) (request : Http.Request)
    (response : Http.Response Payload) :
  createDatasetGroup data w = (inr res, w1) ->
  truthyString (Some dataset_id) = true ->
  truthyString (Some user_id) = true ->
  performs mainApi
    (updateDatasetDatasetGroups dataset_id
       [ {| Http.Assignment.id := responseId res; Http.Assignment.assigned := true |} ])
    request ->
  mainApi (trace w1) request = inr response ->
  let after := create (Some dataset_id) (Some user_id) data w in
  after.1 = inr res /\
  trace after.2
  = trace w1
    ++ [ Sent request;
         Invalidated [LIST_DATASET_GROUPS_QUERY_KEY; dataset_id];
         Invalidated ["dataset_groups"%string];
         Invalidated (USER_PERMISSIONS_DATASET_GROUPS_QUERY_KEY user_id) ].
Proof.
  intros Hcreate Hd Hu Hreq Hok after. subst after.
  rewrite (assignment_started _ _ _ _ _ _ _ Hcreate Hd Hreq). cbv zeta.
  rewrite Hok, Hu. cbn. split; [done|].
  by rewrite <- !app_assoc.
Qed.

End CreateDatasetGroup.

(** Deleting group g1 of the demo world, whose cache holds the list of
    groups and the users of g1. *)
Lemma mutations_invalidate_every_query_witness :
  let after := useDeleteDatasetGroup DemoGroups.deleteDatasetGroup "g1" DemoGroups.world in
  let w1 := (DemoGroups.deleteDatasetGroup "g1" DemoGroups.world).2 in
  after.1 = inr "ok"%string /\
  (forall (key : list string) (q : Query.State string),
     registered DemoGroups.listDatasetGroups (DemoGroups.getMembers "")
       (DemoGroups.getMembers "/users") (DemoGroups.getMembers "/datasets")
       (DemoGroups.getMembers "/permission_groups") key ->
     cache w1 !! key = Some q ->
     cache after.2 !! key
     = Some {| Query.data := Query.data q; Query.isInvalidated := true |}) /\
  (forall key : list string,
     ~ ["dataset_groups"%string] `prefix_of` key ->
     cache after.2 !! key = cache w1 !! key).
Proof.
  apply (proj1 (mutations_invalidate_every_query
                  DemoGroups.deleteDatasetGroup
                  (fun _ : unit => DemoGroups.deleteDatasetGroup "g1")
                  DemoGroups.listDatasetGroups (DemoGroups.getMembers "")
                  (DemoGroups.getMembers "/users") (DemoGroups.getMembers "/datasets")
                  (DemoGroups.getMembers "/permission_groups"))
           "g1" DemoGroups.world
           (DemoGroups.deleteDatasetGroup "g1" DemoGroups.world).2 "ok"%string).
  vm_compute. reflexivity.
Defined.

(** Creating a group while offline, for a dataset and a user. *)
Lemma useCreateDatasetGroup_create_rejected_witness :
  useCreateDatasetGroup DemoGroups.createOffline
    (DemoGroups.updateDatasetDatasetGroups DemoHooks.server) (fun res => res)
    "datasets" DemoGroups.userKey (Some "d1"%string) (Some "u1"%string) "sales"
    DemoGroups.world
  = (inl (Rejected "Network Error"%string),
     (DemoGroups.createOffline "sales" DemoGroups.world).2).
Proof.
  apply (useCreateDatasetGroup_create_rejected DemoGroups.createOffline
           (DemoGroups.updateDatasetDatasetGroups DemoHooks.server) (fun res => res)
           "datasets" DemoGroups.userKey (Some "d1"%string) (Some "u1"%string) "sales"
           DemoGroups.world).
  vm_compute. reflexivity.
Defined.

(** Creating a group from a place that knows no dataset and passes an
    empty user id. *)
Lemma useCreateDatasetGroup_bare_witness :
  useCreateDatasetGroup DemoGroups.createDatasetGroup
    (DemoGroups.updateDatasetDatasetGroups DemoHooks.server) (fun res => res)
    "datasets" DemoGroups.userKey None (Some ""%string) "sales" DemoGroups.world
  = DemoGroups.createDatasetGroup "sales" DemoGroups.world.
Proof.
  apply (useCreateDatasetGroup_bare DemoGroups.createDatasetGroup
           (DemoGroups.updateDatasetDatasetGroups DemoHooks.server) (fun res => res)
           "datasets" DemoGroups.userKey None (Some ""%string) "sales" DemoGroups.world);
    reflexivity.
Defined.

(** The group is created, then the client goes offline for the
    assignment to dataset d1. *)
Lemma useCreateDatasetGroup_assignment_rejected_witness :
  let w1 := (DemoGroups.createDatasetGroup "sales" DemoGroups.world).2 in
  let request :=
    DemoGroups.assignmentRequest "d1"
      [ {| Http.Assignment.id := "ok"; Http.Assignment.assigned := true |} ] in
  useCreateDatasetGroup DemoGroups.createDatasetGroup
    (DemoGroups.updateDatasetDatasetGroups DemoGroups.offline) (fun res => res)
    "datasets" DemoGroups.userKey (Some "d1"%string) (Some "u1"%string) "sales"
    DemoGroups.world
  = (inl (Rejected "Network Error"%string),
     afterInvalidation ["dataset_groups"%string]
       (afterInvalidation ["datasets"; "d1"]%string (afterRequest request w1))).
Proof.
  apply (useCreateDatasetGroup_assignment_rejected DemoGroups.offline
           DemoGroups.createDatasetGroup
           (DemoGroups.updateDatasetDatasetGroups DemoGroups.offline) (fun res => res)
           "datasets" DemoGroups.userKey "d1" (Some "u1"%string) "sales"
           DemoGroups.world
           (DemoGroups.createDatasetGroup "sales" DemoGroups.world).2 "ok"%string
           (DemoGroups.assignmentRequest "d1"
              [ {| Http.Assignment.id := "ok"; Http.Assignment.assigned := true |} ])
           "Network Error"%string).
  - vm_compute. reflexivity.
  - reflexivity.
  - apply send_then_data.
  - reflexivity.
Defined.

(** The group is created and assigned to dataset d1 for user u1. *)
Lemma useCreateDatasetGroup_fulfilled_witness :
  let request :=
    DemoGroups.assignmentRequest "d1"
      [ {| Http.Assignment.id := "ok"; Http.Assignment.assigned := true |} ] in
  let after :=
    useCreateDatasetGroup DemoGroups.createDatasetGroup
      (DemoGroups.updateDatasetDatasetGroups DemoHooks.server) (fun res => res)
      "datasets" DemoGroups.userKey (Some "d1"%string) (Some "u1"%string) "sales"
      DemoGroups.world in
  after.1 = inr "ok"%string /\
  trace after.2
  = trace (DemoGroups.createDatasetGroup "sales" DemoGroups.world).2
    ++ [ Sent request;
         Invalidated ["datasets"; "d1"]%string;
         Invalidated ["dataset_groups"%string];
         Invalidated (DemoGroups.userKey "u1") ].
Proof.
  apply (useCreateDatasetGroup_fulfilled DemoHooks.server
           DemoGroups.createDatasetGroup
           (DemoGroups.updateDatasetDatasetGroups DemoHooks.server) (fun res => res)
           "datasets" DemoGroups.userKey "d1" "u1" "sales"
           DemoGroups.world
           (DemoGroups.createDatasetGroup "sales" DemoGroups.world).2 "ok"%string
           (DemoGroups.assignmentRequest "d1"
              [ {| Http.Assignment.id := "ok"; Http.Assignment.assigned := true |} ])
           {| Http.status := 200; Http.data := "ok"%string |}).
  - vm_compute. reflexivity.
  - reflexivity.
  - reflexivity.
  - apply send_then_data.
  - reflexivity.
Defined.

(** *** The dataset list: keys, emptiness and stability *)

Section UserDatasetsRowsMore.

Import UserDatasetsList.

Variable createBusterRoute : string -> string.

Abbreviation rowOf' := (UserDatasetsList.rowOf createBusterRoute).
Abbreviation rows' := (UserDatasetsList.rows createBusterRoute).

Lemma rows_sections (ds : list Dataset.t) :
  rows' ds
  = (if existsb Dataset.assigned ds
     then [sectionHeader "header-assigned" "Assigned"
             (map rowOf' (List.filter Dataset.assigned ds))]
     else [])
    ++ map rowOf' (List.filter Dataset.assigned ds)
    ++ (if existsb unassigned ds
        then [sectionHeader "header-not-assigned" "Not Assigned"
                (map rowOf' (List.filter unassigned ds))]
        else [])
    ++ map rowOf' (List.filter unassigned ds).
Proof.
  unfold rows. rewrite partitionDatasets_spec.
  cbn [canQueryPermissionUsers cannotQueryPermissionUsers].
  rewrite !List.filter_app, !shown_rows.
  cbn [List.filter]. unfold shown at 1 2, sectionHeader at 1 3.
  cbn [Row.hidden]. rewrite !filter_empty_iff.
  by destruct (existsb Dataset.assigned ds), (existsb unassigned ds).
Qed.

Lemma rows_data (ds : list Dataset.t) :
  omap Row.data (rows' ds)
  = List.filter Dataset.assigned ds ++ List.filter unassigned ds.
Proof.
  rewrite rows_sections, !omap_app, !data_rows.
  by destruct (existsb Dataset.assigned ds), (existsb unassigned ds).
Qed.

Lemma rows_ids (ds : list Dataset.t) :
  map Row.id (rows' ds)
  = (if existsb Dataset.assigned ds then ["header-assigned"%string] else [])
    ++ map Dataset.id (List.filter Dataset.assigned ds)
    ++ (if existsb unassigned ds then ["header-not-assigned"%string] else [])
    ++ map Dataset.id (List.filter unassigned ds).
Proof.
  rewrite rows_sections, !map_app, !map_map. cbn [Row.id UserDatasetsList.rowOf].
  by destruct (existsb Dataset.assigned ds), (existsb unassigned ds).
Qed.

Lemma existsb_false_filter (p : Dataset.t -> bool) (ds : list Dataset.t) :
  existsb p ds = false -> List.filter p ds = [].
Proof.
  induction ds as [|d ds IH]; [done|]. simpl.
  destruct (p d); [done | exact IH].
Qed.

Lemma filter_filter_same (p : Dataset.t -> bool) (ds : list Dataset.t) :
  List.filter p (List.filter p ds) = List.filter p ds.
Proof.
  induction ds as [|d ds IH]; [done|]. simpl.
  destruct (p d) eqn:Hp; [|exact IH]. simpl. by rewrite Hp, IH.
Qed.

Lemma filter_filter_other (p q : Dataset.t -> bool) (ds : list Dataset.t) :
  (forall d, p d = negb (q d)) -> List.filter p (List.filter q ds) = [].
Proof.
  intros Hpq. induction ds as [|d ds IH]; [done|]. simpl.
  destruct (q d) eqn:Hq; [|exact IH]. simpl. by rewrite Hpq, Hq.
Qed.

Lemma existsb_filter_same (p : Dataset.t -> bool) (ds : list Dataset.t) :
  existsb p (List.filter p ds) = existsb p ds.
Proof.
  induction ds as [|d ds IH]; [done|]. simpl.
  destruct (p d) eqn:Hp; simpl; [by rewrite Hp | exact IH].
Qed.

Lemma existsb_filter_other (p q : Dataset.t -> bool) (ds : list Dataset.t) :
  (forall d, p d = negb (q d)) -> existsb p (List.filter q ds) = false.
Proof.
  intros Hpq. induction ds as [|d ds IH]; [done|]. simpl.
  destruct (q d) eqn:Hq; [|exact IH]. simpl. by rewrite Hpq, Hq.
Qed.

(** X15.  Row keys are unique: when the datasets have pairwise distinct
    ids and none of them is called "header-assigned" or
    "header-not-assigned", no two rows of the list share an id. *)
Theorem rows_ids_NoDup (ds : list Dataset.t) :
  NoDup (map Dataset.id ds) ->
  "header-assigned"%string ∉ map Dataset.id ds ->
  "header-not-assigned"%string ∉ map Dataset.id ds ->
  NoDup (map Row.id (rows' ds)).
Proof.
  intros Hnodup Ha Hn.
  assert (Hperm : map Dataset.id (List.filter Dataset.assigned ds)
                  ++ map Dataset.id (List.filter unassigned ds)
                  ≡ₚ map Dataset.id ds).
  { rewrite <- map_app. apply fmap_Permutation, filter_split_Permutation. }
  rewrite <- Hperm in Hnodup, Ha, Hn. rewrite rows_ids.
  set (l1 := map Dataset.id (List.filter Dataset.assigned ds)) in *.
  set (l2 := map Dataset.id (List.filter unassigned ds)) in *.
  destruct (existsb Dataset.assigned ds), (existsb unassigned ds);
    cbn [app]; rewrite ?app_nil_l.
  - rewrite <- Permutation_middle. apply NoDup_cons. split.
    + rewrite not_elem_of_cons. done.
    + apply NoDup_cons. done.
  - apply NoDup_cons. done.
  - rewrite <- Permutation_middle. apply NoDup_cons. done.
  - done.
Qed.

(** X16.  The list is empty exactly when there is no dataset (the empty
    state is shown then, and only then); otherwise its first row is a
    section header. *)
Theorem rows_empty_iff (ds : list Dataset.t) :
  (rows' ds = [] <-> ds = []) /\
  (ds <> [] ->
   exists header rest,
     rows' ds = header :: rest /\
     Row.data header = None /\ is_Some (Row.rowSection header)).
Proof.
  assert (Hhead : ds <> [] ->
            exists header rest,
              rows' ds = header :: rest /\
              Row.data header = None /\ is_Some (Row.rowSection header)).
  { intros Hne. rewrite rows_sections.
    destruct (existsb Dataset.assigned ds) eqn:Ha.
    - eexists _, _. split; [reflexivity|]. split; [done | by eexists].
    - rewrite (existsb_false_filter _ _ Ha). cbn [map app].
      destruct (existsb unassigned ds) eqn:Hu.
      + eexists _, _. split; [reflexivity|]. split; [done | by eexists].
      + destruct ds as [|d ds']; [done|]. simpl in Ha, Hu. unfold unassigned in Hu.
        by destruct (Dataset.assigned d). }
  split; [|exact Hhead]. split.
  - intros Hnil. destruct ds as [|d ds']; [done|].
    destruct Hhead as (header & rest & Hrows & _); [done|]. congruence.
  - by intros ->.
Qed.

(** X17.  Listing is stable: fed with the datasets of its own rows, in
    row order, the list comes out the same. *)
Theorem rows_stable (ds : list Dataset.t) :
  rows' (omap Row.data (rows' ds)) = rows' ds.
Proof.
  assert (Hneg : forall d, unassigned d = negb (Dataset.assigned d)) by done.
  assert (Hneg' : forall d, Dataset.assigned d = negb (unassigned d)).
  { intros d. unfold unassigned. by rewrite negb_involutive. }
  rewrite rows_data, (rows_sections ds), (rows_sections (_ ++ _)).
  rewrite !List.filter_app, !existsb_app.
  rewrite !filter_filter_same, !existsb_filter_same.
  rewrite (filter_filter_other _ _ ds Hneg), (filter_filter_other _ _ ds Hneg').
  rewrite (existsb_filter_other _ _ ds Hneg), (existsb_filter_other _ _ ds Hneg').
  by rewrite app_nil_r, orb_false_r.
Qed.

End UserDatasetsRowsMore.

(** Three datasets with distinct ids. *)
Lemma rows_ids_NoDup_witness :
  let d (i : string) (a : bool) :=
    {| UserDatasetsList.Dataset.id := i;
       UserDatasetsList.Dataset.name := i;
       UserDatasetsList.Dataset.assigned := a |} in
  NoDup (map UserDatasetsList.Row.id
           (UserDatasetsList.rows (String.append "/users/")
              [d "a" true; d "b" false; d "c" true])).
Proof.
  apply (rows_ids_NoDup (String.append "/users/")
           [ {| UserDatasetsList.Dataset.id := "a";
                UserDatasetsList.Dataset.name := "a";
                UserDatasetsList.Dataset.assigned := true |};
             {| UserDatasetsList.Dataset.id := "b";
                UserDatasetsList.Dataset.name := "b";
                UserDatasetsList.Dataset.assigned := false |};
             {| UserDatasetsList.Dataset.id := "c";
                UserDatasetsList.Dataset.name := "c";
                UserDatasetsList.Dataset.assigned := true |} ]).
  - compute_done.
  - compute_done.
  - compute_done.
Defined.

(** A dataset that takes the id of a header breaks the uniqueness of
    the row keys. *)
Example rows_ids_clash :
  map UserDatasetsList.Row.id
    (UserDatasetsList.rows (String.append "/users/")
       [ {| UserDatasetsList.Dataset.id := "header-assigned";
            UserDatasetsList.Dataset.name := "x";
            UserDatasetsList.Dataset.assigned := true |} ])
  = ["header-assigned"; "header-assigned"]%string.
Proof. reflexivity. Qed.

(** *** Label style options across renders *)

Section StyleOptions.

Import EditLabelStyle.

Lemma useMemo_deps {D V : Type} `{EqDecision D}
    (cell : option (AxisTitle.Memo D V)) (create : V) (d : D) :
  AxisTitle.deps (AxisTitle.useMemo cell create d) = d.
Proof.
  unfold AxisTitle.useMemo. destruct cell as [c|]; [|done].
  by destruct (decide (AxisTitle.deps c = d)).
Qed.

Lemma rerender_last (history : list Props) (prev : Props) :
  rerender (history ++ [prev]) = Some (enabledOptions prev (rerender history)).
Proof. unfold rerender. by rewrite fold_left_app. Qed.

(** A render computes the options anew when it is the first one or when
    the column type differs from the previous render, and returns the
    previous options otherwise. *)
Lemma optionsAfter_snoc (history : list Props) (prev props : Props) :
  optionsAfter (history ++ [prev]) props
  = if decide (columnType prev = columnType props)
    then optionsAfter history prev
    else createEnabledOptions props.
Proof.
  unfold optionsAfter at 1. rewrite rerender_last.
  unfold enabledOptions at 1, AxisTitle.useMemo at 1.
  unfold enabledOptions. rewrite useMemo_deps.
  by destruct (decide (columnType prev = columnType props)).
Qed.

Lemma optionsAfter_origin (history : list Props) (props : Props) :
  exists q : Props,
    columnType q = columnType props /\
    optionsAfter history props = createEnabledOptions q.
Proof.
  revert props. induction history as [|prev history IH] using rev_ind; intros props.
  - by exists props.
  - rewrite optionsAfter_snoc.
    destruct (decide (columnType prev = columnType props)) as [Heq|Hne].
    + destruct (IH prev) as (q & Hq & ->). exists q. split; congruence.
    + by exists props.
Qed.

(** X18.  Whatever the renders before, the options of a number column
    are number, percent and currency, possibly followed by date; those of
    a date column are date alone; any other column has none, and exactly
    then the component renders nothing. *)
Theorem enabledOptions_by_columnType (history : list Props) (props : Props) :
  (columnType props = "number"%string ->
   optionsAfter history props = ["number"; "percent"; "currency"]%string \/
   optionsAfter history props = ["number"; "percent"; "currency"; "date"]%string) /\
  (columnType props = "date"%string ->
   optionsAfter history props = ["date"%string]) /\
  (columnType props <> "number"%string -> columnType props <> "date"%string ->
   optionsAfter history props = []) /\
  (rendersNothing history props = true <->
   columnType props <> "number"%string /\ columnType props <> "date"%string).
Proof.
  destruct (optionsAfter_origin history props) as (q & Hq & Hopts).
  unfold rendersNothing. rewrite Hopts. unfold createEnabledOptions. rewrite Hq.
  destruct (String.eqb_spec (columnType props) "number") as [Hn|Hn];
    [destruct (truthy (convertNumberTo q))
    |destruct (String.eqb_spec (columnType props) "date") as [Hd|Hd]];
    cbn; repeat split; intros;
    first [done | by left | by right | congruence | tauto].
Qed.

(** X19.  While the column type stays the same, the options are those
    of the first render: a later change of [convertNumberTo] alone does
    not add or remove the date option. *)
Theorem enabledOptions_first_render
    (first : Props) (later : list Props) (props : Props) :
  Forall (fun q => columnType q = columnType first) later ->
  columnType props = columnType first ->
  optionsAfter (first :: later) props = createEnabledOptions first.
Proof.
  revert props. induction later as [|prev later IH] using rev_ind;
    intros props Hlater Hprops.
  - change [first] with ([] ++ [first]). rewrite optionsAfter_snoc.
    rewrite decide_True by done. reflexivity.
  - apply Forall_app in Hlater as [Hlater Hprev].
    apply Forall_inv in Hprev. cbn beta in Hprev.
    rewrite app_comm_cons, optionsAfter_snoc.
    rewrite decide_True by congruence. by apply IH.
Qed.

End StyleOptions.

(** The conversion to a date is switched on after the first render of a
    number column: the date option does not appear. *)
Lemma enabledOptions_first_render_witness :
  EditLabelStyle.optionsAfter [DemoStyle.plainNumber; DemoStyle.plainNumber]
    DemoStyle.numberAsDate
  = ["number"; "percent"; "currency"]%string.
Proof.
  apply (enabledOptions_first_render DemoStyle.plainNumber [DemoStyle.plainNumber]
           DemoStyle.numberAsDate).
  - apply Forall_singleton. reflexivity.
  - reflexivity.
Defined.

Lemma enabledOptions_by_columnType_witness :
  EditLabelStyle.optionsAfter [DemoStyle.plainNumber] DemoStyle.numberAsDate
  = ["number"; "percent"; "currency"]%string \/
  EditLabelStyle.optionsAfter [DemoStyle.plainNumber] DemoStyle.numberAsDate
  = ["number"; "percent"; "currency"; "date"]%string.
Proof.
  apply (proj1 (enabledOptions_by_columnType [DemoStyle.plainNumber]
                  DemoStyle.numberAsDate)).
  reflexivity.
Defined.
